(** * Locator resilience of the Apollo scraper: miner, validator, updater, monitor

    A shallow embedding of the selector miner (findBestSelector,
    mineCellSelector, mineSelectors, validateSelectors, updateSelectors and
    the request handler of main), of the row discovery of the scraper
    (scrapeCurrentPage, step 1) and of the failure handling of the selector
    monitor (handleSelectorFailures, the counters of generateReport).

    Modelling conventions.
    - The browser is an external collaborator.  A page and an element handle
      are records of the answers they give to the queries the code issues:
      [locator] and [queryAll] return the matches in document order, so that
      [count()] is the length and [first()] the head; [query] is [$].
    - Playwright has two kinds of object for a place in the document.
      [page.locator], [first()] and [all()] give Locators; [$] and [$$] give
      ElementHandles.  Only an ElementHandle has the methods [$] and [$$]:
      calling them on a Locator is a TypeError ([Receiver], [dollar],
      [dollars]).  A method that the object has does not throw; the explicit
      waits may time out, and then the function throws.
    - An element is described by what generateSelector reads from it: tag
      name (lower-cased, as [tagName.toLowerCase()] gives it), the
      data-testid, the id, the class list, the role attribute and the class
      lists of the other children of its parent.  A handle carries the
      element and its ancestors, nearest first.
    - A JavaScript object used as a record (MinedSelectors, the [table]
      object literal) is an association list in insertion order; a value of
      type [string | null] is an [option string].
    - Strings are compared by their characters; [String.length] counts bytes,
      which is the JavaScript length for the ASCII class names and selectors
      the code handles.
    - JavaScript numbers are binary64 floats: the validity rate is computed
      with the kernel's primitive floats.
    - selectors.ts is represented by the comment headers that updateSelectors
      prepends and by the member named [table] at the top level of the
      SELECTORS object literal, which is what [getPropertyOrThrow] looks up:
      a property whose initialiser is an object literal (the shape the
      updater edits), a get accessor (the repository's selectors.ts, on which
      [getInitializerIfKindOrThrow] is not defined) or no such member.  Array
      elements and property initialisers are kept as source text, quotes
      included, because the code reads them back with [getText()].
    - A function that touches the disk returns the disk it leaves together
      with its completion, so that what was written before a throw is kept.
    - The steps of the request handler that precede mining (login,
      navigation, the wait for the main application) enter by their combined
      outcome, and so does testUpdatedSelectors, which only reads and whose
      completion depends on the module system that runs it. *)

From Stdlib Require Import ZArith List String Ascii Bool Lia PrimFloat Uint63.
From stdpp Require Import base list.
Import ListNotations.

Local Open Scope string_scope.

(** ** JavaScript helpers *)

Module JS.

(** The double-quote and single-quote characters. *)
Definition dq : string := String "034"%char EmptyString.
Definition sq : string := String "039"%char EmptyString.

(** Truthiness of a [string | null | undefined] value. *)
Definition truthy (v : option string) : bool :=
    match v with
    | Some s => negb (String.eqb s "")
    | None => false
    end.

(** [s.startsWith(p)] *)
Definition startsWith (s p : string) : bool := String.prefix p s.

(** [s.includes(c)] for a one-character needle. *)
Fixpoint includesChar (s : string) (c : ascii) : bool :=
    match s with
    | EmptyString => false
    | String a rest => Ascii.eqb a c || includesChar rest c
    end.

(** [s.includes(needle)] *)
Fixpoint includes (s needle : string) : bool :=
    String.prefix needle s ||
    match s with
    | EmptyString => false
    | String _ rest => includes rest needle
    end.

(** [s.replace(re, '')] where the global pattern [re] matches a single or a
    double quote: every quote character of [s] is removed. *)
Fixpoint stripQuotes (s : string) : string :=
    match s with
    | EmptyString => EmptyString
    | String a rest =>
        if Ascii.eqb a "034"%char || Ascii.eqb a "039"%char
        then stripQuotes rest
        else String a (stripQuotes rest)
    end.

(** [xs.join(sep)] *)
Definition join (sep : string) (xs : list string) : string := String.concat sep xs.

Definition isDigit (a : ascii) : bool :=
    let n := nat_of_ascii a in (48 <=? n)%nat && (n <=? 57)%nat.

(** [s.match(re)] is non-null for the pattern [re] of a plus sign followed
    by one or more digits: some plus sign is directly followed by a digit. *)
Fixpoint matchesPlusDigits (s : string) : bool :=
    match s with
    | String "+"%char ((String d _) as rest) => isDigit d || matchesPlusDigits rest
    | String _ rest => matchesPlusDigits rest
    | EmptyString => false
    end.

(** [`'${s}'`]: the text of a single-quoted literal. *)
Definition quoted (s : string) : string := sq ++ s ++ sq.

(** Stable sort by decreasing length, as
    [xs.sort((a, b) => b.length - a.length)] (Array.prototype.sort is
    stable): an element is placed after the strictly longer ones only. *)
Fixpoint insertByLength (x : string) (l : list string) : list string :=
    match l with
    | [] => [x]
    | y :: l' =>
        if (String.length x <? String.length y)%nat
        then y :: insertByLength x l'
        else x :: l
    end.

Definition sortByLengthDesc (l : list string) : list string :=
    fold_right insertByLength [] l.

End JS.

(** ** Outcome of a call that may throw *)

Inductive Result (A : Type) : Type :=
  | Ok (a : A)
  | Throws.
Arguments Ok {A} a.
Arguments Throws {A}.

(** ** The document model *)

Record Element := mkElement {
    tagName : string;
    dataTestid : option string;
    elemId : string;
    classList : list string;
    roleAttr : option string;
    siblingClassLists : list (list string)
  }.

#[warnings="-register-all"] Inductive Handle := mkHandle {
    element : Element;
    ancestors : list Element;
    isVisible : bool;
    textContent : option string;
    query : string -> option Handle;
    queryAll : string -> list Handle
  }.

Record Page := mkPage {
    waitForSelector : string -> bool;
    locator : string -> list Handle
  }.

(** The object a method is called on: a Locator or an ElementHandle for the
    node [node]. *)
Inductive Receiver :=
  | Locator (node : Handle)
  | ElementHandle (node : Handle).

Definition nodeOf (r : Receiver) : Handle :=
  match r with
  | Locator node => node
  | ElementHandle node => node
  end.

(** [r.$(selector)]: the first match below an element handle; a Locator has
    no such method. *)
Definition dollar (r : Receiver) (selector : string) : Result (option Handle) :=
  match r with
  | Locator _ => Throws
  | ElementHandle node => Ok (query node selector)
  end.

(** [r.$$(selector)] *)
Definition dollars (r : Receiver) (selector : string) : Result (list Handle) :=
  match r with
  | Locator _ => Throws
  | ElementHandle node => Ok (queryAll node selector)
  end.

(** ** LocatorGenerator: findBestSelector *)

Module Generator.
Import JS.

Definition isZpClass (c : string) : bool := startsWith c "zp_".

(** Priority 3 of generateSelector; [None] stands for falling through. *)
Definition classSelector (element : Element) : option string :=
    let classes := classList element in
    let zpClasses :=
      List.filter (fun c => isZpClass c && (6 <? String.length c)%nat) classes in
    match sortByLengthDesc zpClasses with
    | primaryClass :: _ =>
        let tag := tagName element in
        let sameClassCount :=
          List.length
            (List.filter (fun sib => existsb (String.eqb primaryClass) sib)
                         (siblingClassLists element)) in
        if (sameClassCount =? 0)%nat then Some (tag ++ "." ++ primaryClass)
        else
          match List.find (fun c => isZpClass c && negb (String.eqb c primaryClass))
                          classes with
          | Some secondaryClass =>
              Some (tag ++ "." ++ primaryClass ++ "." ++ secondaryClass)
          | None => None
          end
    | [] => None
    end.

(** Priority 4 of generateSelector. *)
Definition roleSelector (element : Element) : option string :=
    if truthy (roleAttr element) then
      let role := match roleAttr element with Some r => r | None => "" end in
      let tag := tagName element in
      let classes := join "." (List.filter isZpClass (classList element)) in
      if truthy (Some classes)
      then Some (tag ++ "[role=" ++ dq ++ role ++ dq ++ "]." ++ classes)
      else None
    else None.

Definition generateSelector (element : Element) : option string :=
    if truthy (dataTestid element) then
      let testid := match dataTestid element with Some t => t | None => "" end in
      Some (tagName element ++ "[data-testid=" ++ dq ++ testid ++ dq ++ "]")
    else if truthy (Some (elemId element)) && negb (includesChar (elemId element) ":"%char)
    then Some ("#" ++ elemId element)
    else
      match classSelector element with
      | Some s => Some s
      | None => roleSelector element
      end.

(** The loop [for (let i = 0; i < 3 && currentEl; i++)]: [budget] is the
    number of iterations left, the list is [currentEl] and its parents.
    Every selector generateSelector returns is a non-empty string, so
    [if (selector) break] is the [Some] case. *)
Fixpoint walk (budget : nat) (els : list Element) : option string :=
    match budget, els with
    | S budget', currentEl :: parents =>
        match generateSelector currentEl with
        | Some selector => Some selector
        | None => walk budget' parents
        end
    | _, _ => None
    end.

Definition findBestSelector (elementHandle : Handle) : option string :=
    walk 3 (element elementHandle :: ancestors elementHandle).

End Generator.

(** ** MinedSelectors *)

(** The keys of the MinedSelectors interface. *)
Inductive Key :=
  | rowClass | name | jobTitle | companyName | email | emailRequiresAccess
  | phoneRequestLink | phoneVisible | linkedIn | location | employeeCount
  | nicheTags.

#[global] Instance Key_eq_dec : EqDecision Key.
Proof. solve_decision. Defined.

Definition allKeys : list Key :=
  [ rowClass; name; jobTitle; companyName; email; emailRequiresAccess;
    phoneRequestLink; phoneVisible; linkedIn; location; employeeCount;
    nicheTags ].

Definition keyName (k : Key) : string :=
  match k with
  | rowClass => "rowClass" | name => "name" | jobTitle => "jobTitle"
  | companyName => "companyName" | email => "email"
  | emailRequiresAccess => "emailRequiresAccess"
  | phoneRequestLink => "phoneRequestLink" | phoneVisible => "phoneVisible"
  | linkedIn => "linkedIn" | location => "location"
  | employeeCount => "employeeCount" | nicheTags => "nicheTags"
  end.

(** The object, as its entries in insertion order. *)
Definition MinedSelectors := list (Key * option string).

(** [mined[k]]: [None] when the key is absent (undefined). *)
Fixpoint getKey (k : Key) (mined : MinedSelectors) : option (option string) :=
  match mined with
  | [] => None
  | (k', v) :: rest => if bool_decide (k' = k) then Some v else getKey k rest
  end.

(** [mined[k] = v]: an existing key keeps its place, a new one goes last. *)
Fixpoint setKey (k : Key) (v : option string) (mined : MinedSelectors) : MinedSelectors :=
  match mined with
  | [] => [(k, v)]
  | (k', v') :: rest =>
      if bool_decide (k' = k) then (k, v) :: rest else (k', v') :: setKey k v rest
  end.

(** The value read as [string | null | undefined], for truthiness tests. *)
Definition valueOf (k : Key) (mined : MinedSelectors) : option string :=
  match getKey k mined with
  | Some v => v
  | None => None
  end.

(** The part of SELECTORS.table that the modelled code reads. *)
Record TableSelectors := mkTableSelectors {
    rowSelectors : list string;
    cell : string
  }.

(** ** FieldMiner: mineCellSelector and mineSelectors *)

Module Miner.
Import JS Generator.

Definition selInteractive : string := "a, button, span.zp_CaeaN, [data-testid]".
Definition selTableLoaded : string :=
    "div[role=" ++ dq ++ "row" ++ dq ++ "][aria-rowindex=" ++ dq ++ "1" ++ dq ++ "]".
Definition selRoleCell : string := "[role=" ++ dq ++ "cell" ++ dq ++ "]".
Definition selNameAnchor : string := "a[href*=" ++ dq ++ "/contacts/" ++ dq ++ "]".
Definition selLinkedIn : string := "a[href*=" ++ dq ++ "linkedin.com/in" ++ dq ++ "]".
Definition selEmailSpan : string := "span.zp_CaeaN.zp_JTaUA".
Definition selAccessBtn : string := "button:has-text(" ++ dq ++ "Access" ++ dq ++ ")".
Definition selRequestLink : string := "a:has-text(" ++ dq ++ "Request" ++ dq ++ ")".
Definition selPhoneSpan : string := "span.zp_CaeaN".

(** The loop of mineCellSelector over the interactive elements of a cell. *)
Fixpoint firstWorkingSelector (page : Page) (elements : list Handle) : option string :=
  match elements with
  | [] => None
  | element :: rest =>
      if negb (isVisible element) then firstWorkingSelector page rest
      else
        match findBestSelector element with
        | Some selector =>
            if (0 <? List.length (locator page selector))%nat then Some selector
            else firstWorkingSelector page rest
        | None => firstWorkingSelector page rest
        end
  end.

(** mineCellSelector: the whole body is inside a try; a throw of [cell.$$]
    is caught and gives null. *)
Definition mineCellSelector (page : Page) (cell : Receiver) : option string :=
  match dollars cell selInteractive with
  | Ok elements => firstWorkingSelector page elements
  | Throws => None
  end.

(** Row discovery of mineSelectors: the first configured selector with a
    match, together with [rows.first()]. *)
Fixpoint findRowLocator (page : Page) (candidates : list string) : option (string * Handle) :=
  match candidates with
  | [] => None
  | rowSelector :: rest =>
      match locator page rowSelector with
      | first :: _ => Some (rowSelector, first)
      | [] => findRowLocator page rest
      end
  end.

(** The predicate of the [find] evaluated on the row element. *)
Definition isRowClass (c : string) : bool :=
  startsWith c "zp_" && (10 <? String.length c)%nat.

Definition rowClassOf (el : Element) : option string :=
  List.find isRowClass (classList el).

Definition mineRowClass (rowLocator : Handle) (mined : MinedSelectors) : MinedSelectors :=
  let rowClass' := rowClassOf (element rowLocator) in
  if truthy rowClass' then
    match rowClass' with
    | Some c => setKey rowClass (Some ("div." ++ c)) mined
    | None => mined
    end
  else mined.

Definition cellMapping : list (nat * Key) :=
  [ (1, name); (2, jobTitle); (3, companyName); (4, email);
    (5, phoneRequestLink); (7, linkedIn); (9, location);
    (10, employeeCount); (12, nicheTags) ]%nat.

(** The body of the [switch (cellType)]: the selector found for the cell and
    the object after the assignments made inside the switch, or a throw.
    Every case starts with a [$] on the cell, before any assignment; the
    default case calls mineCellSelector, which catches its own. *)
Definition mineSwitch (page : Page) (cell : Receiver) (cellType : Key)
    (mined : MinedSelectors) : Result (option string * MinedSelectors) :=
  match cellType with
  | name =>
      match dollar cell selNameAnchor with
      | Throws => Throws
      | Ok (Some nameAnchor) =>
          match findBestSelector nameAnchor with
          | Some selector =>
              match query nameAnchor "span" with
              | Some innerSpan =>
                  match findBestSelector innerSpan with
                  | Some spanSelector => Ok (Some (selector ++ " " ++ spanSelector), mined)
                  | None => Ok (Some selector, mined)
                  end
              | None => Ok (Some selector, mined)
              end
          | None => Ok (None, mined)
          end
      | Ok None => Ok (None, mined)
      end
  | linkedIn =>
      match dollar cell selLinkedIn with
      | Throws => Throws
      | Ok (Some _) => Ok (Some selLinkedIn, mined)
      | Ok None => Ok (None, mined)
      end
  | email =>
      match dollar cell selEmailSpan with
      | Throws => Throws
      | Ok emailSpan =>
          let selector :=
            match emailSpan with
            | Some emailSpan => findBestSelector emailSpan
            | None => None
            end in
          match dollar cell selAccessBtn with
          | Throws => Throws
          | Ok (Some _) => Ok (selector, setKey emailRequiresAccess (Some selAccessBtn) mined)
          | Ok None => Ok (selector, mined)
          end
      end
  | phoneRequestLink =>
      match dollar cell selRequestLink with
      | Throws => Throws
      | Ok (Some requestLink) => Ok (findBestSelector requestLink, mined)
      | Ok None =>
          match dollar cell selPhoneSpan with
          | Throws => Throws
          | Ok (Some phoneSpan) =>
              let text := textContent phoneSpan in
              if truthy text &&
                 matchesPlusDigits (match text with Some t => t | None => "" end)
              then
                let selector := findBestSelector phoneSpan in
                Ok (selector, setKey phoneVisible selector mined)
              else Ok (None, mined)
          | Ok None => Ok (None, mined)
          end
      end
  | _ => Ok (mineCellSelector page cell, mined)
  end.

(** One iteration of [for (const mapping of cellMapping)]: the try around
    the switch and the assignment, and its catch, which only logs. *)
Definition mineCell (page : Page) (cells : list Receiver) (mapping : nat * Key)
    (mined : MinedSelectors) : MinedSelectors :=
  let '(cellIndex, cellType) := mapping in
  match cells !! cellIndex with
  | Some cell =>
      match mineSwitch page cell cellType mined with
      | Ok (selector, mined') =>
          if truthy selector then setKey cellType selector mined' else mined'
      | Throws => mined
      end
  | None => mined
  end.

Definition mineCells (page : Page) (cells : list Receiver) (mined : MinedSelectors)
    : MinedSelectors :=
  fold_left (fun acc mapping => mineCell page cells mapping acc) cellMapping mined.

(** mineSelectors.  The cells come from [rowLocator.locator(...).all()]:
    they are Locators. *)
Definition mineSelectors (page : Page) (T : TableSelectors) : Result MinedSelectors :=
  let mined : MinedSelectors := [] in
  if negb (waitForSelector page selTableLoaded) then Throws
  else
    match findRowLocator page (rowSelectors T) with
    | None => Ok mined
    | Some (_, rowLocator) =>
        if negb (isVisible rowLocator) then Throws
        else
          let mined := mineRowClass rowLocator mined in
          let cells := map Locator (queryAll rowLocator selRoleCell) in
          if (List.length cells <? 10)%nat then Ok mined
          else Ok (mineCells page cells mined)
    end.

End Miner.

(** ** Row discovery of the scraper (scrapeCurrentPage, step 1) *)

Module Scraper.

(** The rows the scraper works on, with the selector that found them; the
    empty list when no candidate qualifies. *)
Fixpoint findRows (page : Page) (cellSel : string) (candidatesList : list string)
    : option string * list Handle :=
  match candidatesList with
  | [] => (None, [])
  | selector :: rest =>
      let candidates := locator page selector in
      match candidates with
      | first :: _ =>
          let firstRowCells := queryAll first cellSel in
          if (10 <=? List.length firstRowCells)%nat then (Some selector, candidates)
          else findRows page cellSel rest
      | [] => findRows page cellSel rest
      end
  end.

Definition scrapeRowDiscovery (page : Page) (T : TableSelectors) : option string * list Handle :=
  findRows page (cell T) (rowSelectors T).

End Scraper.

(** ** LocatorValidator: validateSelectors *)

Module Validator.
Import JS.

(** A JavaScript number holding the integer [z]. *)
Definition num (z : Z) : float :=
  if (z <? 0)%Z then PrimFloat.opp (PrimFloat.of_uint63 (Uint63.of_Z (- z)))
  else PrimFloat.of_uint63 (Uint63.of_Z z).

(** The test [count > 0 && isVisible] on [page.locator(selector)]. *)
Definition resolves (page : Page) (selector : string) : bool :=
  let found := locator page selector in
  let count := List.length found in
  let visible :=
    if (0 <? count)%nat
    then match found with first :: _ => isVisible first | [] => false end
    else false in
  (0 <? count)%nat && visible.

(** [validCount] after the loop over [Object.entries(mined)]. *)
Fixpoint validCount (page : Page) (entries : MinedSelectors) : nat :=
  match entries with
  | [] => 0
  | (key, selector) :: rest =>
      if negb (truthy selector) || bool_decide (key = rowClass)
      then validCount page rest
      else
        match selector with
        | Some s =>
            if resolves page s then S (validCount page rest) else validCount page rest
        | None => validCount page rest
        end
  end.

(** [totalCount = Object.keys(mined).length] *)
Definition totalCount (mined : MinedSelectors) : nat := List.length mined.

Definition validityRate (page : Page) (mined : MinedSelectors) : float :=
  PrimFloat.div (num (Z.of_nat (validCount page mined)))
                (num (Z.of_nat (totalCount mined) - 1)).

#[warnings="-inexact-float"] Definition threshold : float := 0.7%float.

(** [validityRate >= 0.7] *)
Definition validateSelectors (page : Page) (mined : MinedSelectors) : bool :=
  PrimFloat.leb threshold (validityRate page mined).

End Validator.

(** ** ConfigUpdater: updateSelectors *)

Module Updater.
Import JS.

(** An entry of [changes]; the three shapes of message the code pushes. *)
Inductive Change :=
  | RowSelectorChanged (oldValue newValue : string)
  | PropertyChanged (key : Key) (oldValue newValue : string)
  | PropertyAdded (key : Key) (value : string).

(** The [table] object literal: the element texts of the [rowSelectors]
    array literal when the property exists, and the other properties by name
    with the text of their initialiser. *)
Record TableObject := mkTableObject {
    rowSelectorsArray : option (list string);
    properties : list (string * string)
  }.

(** The member named [table] at the top level of the SELECTORS object
    literal, as [obj.getPropertyOrThrow('table')] finds it: a property
    assignment whose initialiser is an object literal, a get accessor, or
    none. *)
Inductive TableMember :=
  | TableProperty (tableObj : TableObject)
  | TableAccessor
  | NoTableMember.

(** selectors.ts: the comment headers inserted at position 0 (newest first),
    each with its timestamp, and the top-level [table] member. *)
Record SourceFile := mkSourceFile {
    headers : list (string * list Change);
    tableMember : TableMember
  }.

Record Disk := mkDisk {
    selectorsFile : option SourceFile;
    backupFile : option SourceFile
  }.

Fixpoint getProperty (key : string) (props : list (string * string)) : option string :=
  match props with
  | [] => None
  | (k, init) :: rest => if String.eqb k key then Some init else getProperty key rest
  end.

Fixpoint setInitializer (key text : string) (props : list (string * string))
    : list (string * string) :=
  match props with
  | [] => []
  | (k, init) :: rest =>
      if String.eqb k key then (k, text) :: rest
      else (k, init) :: setInitializer key text rest
  end.

Definition addPropertyAssignment (key text : string) (props : list (string * string))
    : list (string * string) :=
  (props ++ [(key, text)])%list.

Definition fallbackSelector : string := "div.zp_Uiy0R".

(** The block [if (mined.rowClass) { ... }]: the array after it and the
    changes it pushed. *)
Definition updateRowSelectors (mined : MinedSelectors) (arr : option (list string))
    : option (list string) * list Change :=
  if truthy (valueOf rowClass mined) then
    let minedRowClass := match valueOf rowClass mined with Some c => c | None => "" end in
    match arr with
    | Some elements =>
        if (1 <? List.length elements)%nat then
          match elements !! 1%nat with
          | Some secondElement =>
              let oldValue := stripQuotes secondElement in
              if negb (String.eqb oldValue minedRowClass) then
                let elements' :=
                  if (List.length elements <? 3)%nat
                  then (elements ++ [quoted fallbackSelector])%list
                  else elements in
                (Some (<[1%nat := quoted minedRowClass]> elements'),
                 [RowSelectorChanged oldValue minedRowClass])
              else (arr, [])
          | None => (arr, [])
          end
        else (arr, [])
    | None => (arr, [])
    end
  else (arr, []).

(** One iteration of the loop over [Object.entries(mined)]. *)
Definition updateProperty (st : list (string * string) * list Change)
    (entry : Key * option string) : list (string * string) * list Change :=
  let '(key, value) := entry in
  if bool_decide (key = rowClass) || negb (truthy value) then st
  else
    let v := match value with Some v => v | None => "" end in
    let '(props, changes) := st in
    match getProperty (keyName key) props with
    | Some init =>
        let oldValue := stripQuotes init in
        if negb (String.eqb oldValue v)
        then (setInitializer (keyName key) (quoted v) props,
              (changes ++ [PropertyChanged key oldValue v])%list)
        else st
    | None =>
        (addPropertyAssignment (keyName key) (quoted v) props,
         (changes ++ [PropertyAdded key v])%list)
    end.

(** The edits of updateSelectors on the table object, with [changes]. *)
Definition applyMined (mined : MinedSelectors) (tbl : TableObject)
    : TableObject * list Change :=
  let '(arr, rowChanges) := updateRowSelectors mined (rowSelectorsArray tbl) in
  let '(props, changes) := fold_left updateProperty mined (properties tbl, rowChanges) in
  (mkTableObject arr props, changes).

(** updateSelectors: the disk it leaves and its completion.  The backup is
    taken first, when the file exists.  Opening a missing file throws;
    [getPropertyOrThrow] throws when SELECTORS has no member named table, and
    [getInitializerIfKindOrThrow] is not a method of a get accessor, so the
    call on it throws: in both cases nothing has been edited.  The file is
    saved, with a new header, only when [changed > 0]; testUpdatedSelectors
    runs after the save, and a throw of it leaves the saved file.  [now] is
    the timestamp and [selfTest] the completion of testUpdatedSelectors. *)
Definition updateSelectors (selfTest : Result unit) (mined : MinedSelectors)
    (now : string) (disk : Disk) : Disk * Result (list Change) :=
  match selectorsFile disk with
  | None => (disk, Throws)
  | Some file =>
      let backup := Some file in
      match tableMember file with
      | TableProperty tableObj =>
          let '(tbl, changes) := applyMined mined tableObj in
          if (0 <? List.length changes)%nat
          then (mkDisk (Some (mkSourceFile ((now, changes) :: headers file)
                                           (TableProperty tbl))) backup,
                match selfTest with
                | Ok _ => Ok changes
                | Throws => Throws
                end)
          else (mkDisk (Some file) backup, Ok changes)
      | TableAccessor => (mkDisk (Some file) backup, Throws)
      | NoTableMember => (mkDisk (Some file) backup, Throws)
      end
  end.

(** An entry that the loop over the mined entries leaves alone: it is
    skipped, or the stored text already reads as its value. *)
Definition settled (props : list (string * string)) (entry : Key * option string) : Prop :=
  bool_decide (fst entry = rowClass) || negb (truthy (snd entry)) = true
  \/ exists v init,
       snd entry = Some v /\ getProperty (keyName (fst entry)) props = Some init
       /\ stripQuotes init = v.

End Updater.

(** ** The request handler of main *)

Module Pipeline.
Import Miner Validator Updater.

(** The components the handler invoked, in order. *)
Inductive Call := CallMiner | CallValidator | CallUpdater.

(** What the steps before mining come to: handleLogin throws, the
    navigation to the people page throws, the wait for the main application
    times out, or the page is reached. *)
Inductive Arrival := LoginThrows | NavigationThrows | MainAppTimesOut | Arrived.

(** A run of the handler: the components it invoked, the disk it leaves and
    its completion ([catch (error) { ...; throw error }] rethrows). *)
Record Run := mkRun {
    calls : list Call;
    diskAfter : Disk;
    completion : Result unit
  }.

(** The handler from the test on the mined object on. *)
Definition afterMining (selfTest : Result unit) (page : Page) (mined : MinedSelectors)
    (now : string) (disk : Disk) : Run :=
  if (3 <? List.length mined)%nat then
    let isValid := validateSelectors page mined in
    if isValid then
      let '(disk', updated) := updateSelectors selfTest mined now disk in
      mkRun [CallMiner; CallValidator; CallUpdater] disk'
            (match updated with Ok _ => Ok tt | Throws => Throws end)
    else mkRun [CallMiner; CallValidator] disk (Ok tt)
  else mkRun [CallMiner] disk (Ok tt).

Definition requestHandler (arrival : Arrival) (selfTest : Result unit) (page : Page)
    (T : TableSelectors) (now : string) (disk : Disk) : Run :=
  match arrival with
  | Arrived =>
      match mineSelectors page T with
      | Throws => mkRun [CallMiner] disk Throws
      | Ok mined => afterMining selfTest page mined now disk
      end
  | _ => mkRun [] disk Throws
  end.

End Pipeline.

(** ** DriftMonitor: handleSelectorFailures and the counters of generateReport *)

Module Monitor.
Import JS.

Record SelectorTestResult := mkResult {
    exists_ : bool;
    count : nat;
    description : string;
    resultText : option string;
    foundSelector : option string
  }.

Record CategoryResults := mkCategory {
    category : string;
    results : list SelectorTestResult
  }.

(** What the handler can do to the outside: write a log line, or start the
    miner. *)
Inductive LogLine :=
  | SelectorsFailedSuggestingAutoMining (n : nat)
  | TriggeringSelectorMiner.

Inductive Effect :=
  | LogWarning (line : LogLine)
  | LogInfo (line : LogLine)
  | SpawnMiner.

Definition failedSelectors (cats : list CategoryResults) : list string :=
  map description
      (List.filter (fun r => negb (exists_ r) && (count r =? 0)%nat)
                   (flat_map results cats)).

(** [autoMineEnv] is [process.env.AUTO_MINE_ON_FAILURE]. *)
Definition handleSelectorFailures (cats : list CategoryResults) (autoMineEnv : option string)
    : list Effect :=
  let failed := failedSelectors cats in
  if (3 <? List.length failed)%nat then
    LogWarning (SelectorsFailedSuggestingAutoMining (List.length failed)) ::
    (let shouldAutoMine :=
       match autoMineEnv with Some v => String.eqb v "true" | None => false end in
     if shouldAutoMine then [LogInfo TriggeringSelectorMiner] else [])
  else [].

(** The counters [passed], [failed] and [warnings] of generateReport. *)
Record Counters := mkCounters { passed : nat; failed : nat; warnings : nat }.

Definition countResult (c : Counters) (result : SelectorTestResult) : Counters :=
  let c1 :=
    if exists_ result then mkCounters (S (passed c)) (failed c) (warnings c)
    else mkCounters (passed c) (S (failed c)) (warnings c) in
  if exists_ result && (0 <? count result)%nat && (count result <? 5)%nat
     && includes (description result) "row"
  then mkCounters (passed c1) (failed c1) (S (warnings c1))
  else c1.

Definition reportCounters (cats : list CategoryResults) : Counters :=
  fold_left (fun c cat => fold_left countResult (results cat) c) cats (mkCounters 0 0 0).

End Monitor.

(** ** The specification's wording, for comparison *)

Module SpecWords.
Import JS Miner.

(** The row class as the specification words it: the longest class that
    starts with the prefix and meets the minimum length. *)
Definition longestRowClass (classes : list string) : option string :=
  head (sortByLengthDesc (List.filter isRowClass classes)).

(** The number of attempted fields: the entries other than the row-class
    pseudo-field that hold a locator, which are the entries the validator
    resolves. *)
Definition attemptedCount (mined : MinedSelectors) : nat :=
  List.length
    (List.filter (fun e => truthy (snd e) && negb (bool_decide (fst e = rowClass))) mined).

(** Aggregate validity = (count of valid fields) / (count of attempted
    fields); accept iff validity >= 0.70. *)
Definition validity (page : Page) (mined : MinedSelectors) : float :=
  PrimFloat.div (Validator.num (Z.of_nat (Validator.validCount page mined)))
                (Validator.num (Z.of_nat (attemptedCount mined))).

Definition accepted (page : Page) (mined : MinedSelectors) : bool :=
  PrimFloat.leb Validator.threshold (validity page mined).

End SpecWords.

(** ** Sample documents and configurations *)

Module Fixtures.
Import JS Generator Miner Validator Updater Pipeline Monitor.

Definition noQuery : string -> option Handle := fun _ => None.
Definition noQueryAll : string -> list Handle := fun _ => [].

Definition plain (tag : string) (classes : list string) : Element :=
  mkElement tag None "" classes None [].

Definition leaf (el : Element) : Handle :=
  mkHandle el [] true None noQuery noQueryAll.

Definition hidden (el : Element) : Handle :=
  mkHandle el [] false None noQuery noQueryAll.

(** A handle answering [$] for the listed selectors only. *)
Definition answering (el : Element) (answers : list (string * Handle)) : Handle :=
  mkHandle el [] true None
    (fun s => match List.find (fun a => String.eqb (fst a) s) answers with
              | Some a => Some (snd a)
              | None => None
              end)
    noQueryAll.

(** A handle answering [$$] with [found] for the selector [sel] only. *)
Definition listing (el : Element) (sel : string) (found : list Handle) : Handle :=
  mkHandle el [] true None noQuery (fun s => if String.eqb s sel then found else []).

Definition selDivCell : string := "div[role=" ++ dq ++ "cell" ++ dq ++ "]".

(** A visible row: its cells answer both the miner's and the scraper's cell
    selector. *)
Definition rowOf (classes : list string) (cells : list Handle) : Handle :=
  mkHandle (mkElement "div" None "" classes (Some "row") []) [] true None noQuery
    (fun s => if String.eqb s selRoleCell || String.eqb s selDivCell then cells else []).

(** A loaded page answering [locator] for the listed selectors only. *)
Definition pageOf (answers : list (string * list Handle)) : Page :=
  mkPage (fun _ => true)
    (fun s => match List.find (fun a => String.eqb (fst a) s) answers with
              | Some a => snd a
              | None => []
              end).

(** The row selectors and cell selector of the current configuration. *)
Definition rowSelector0 : string :=
  "div[role=" ++ dq ++ "row" ++ dq ++ "][aria-rowindex]:not([aria-rowindex="
    ++ dq ++ "0" ++ dq ++ "])".
Definition rowSelector1 : string := "div.zp_Uiy0R".
Definition rowSelector2 : string :=
  "div[role=" ++ dq ++ "row" ++ dq ++ "]:not(:has([role=" ++ dq ++ "columnheader"
    ++ dq ++ "]))".

Definition currentT : TableSelectors :=
  mkTableSelectors [rowSelector0; rowSelector1; rowSelector2] selDivCell.

Definition emptyCell : Handle := leaf (plain "div" []).

(** *** Elements for the generator *)

Definition nameAnchorEl : Element :=
  mkElement "a" (Some "contact-name-cell") "" [] None [].

Definition selNameTestid : string :=
  "a[data-testid=" ++ dq ++ "contact-name-cell" ++ dq ++ "]".

(** A text span whose third ancestor is the name anchor. *)
Definition deepSpan : Handle :=
  mkHandle (plain "span" []) [plain "div" []; plain "div" []; nameAnchorEl]
           true (Some "Ada Lovelace") noQuery noQueryAll.

(** The same span one level closer to the anchor. *)
Definition nearSpan : Handle :=
  mkHandle (plain "span" []) [plain "div" []; nameAnchorEl]
           true (Some "Ada Lovelace") noQuery noQueryAll.

(** *** Cells of a data row *)

Definition nameAnchor : Handle := leaf nameAnchorEl.
Definition nameCell : Handle := answering (plain "div" []) [(selNameAnchor, nameAnchor)].

Definition jobSpan : Handle := leaf (plain "span" ["zp_FEm_X"]).
Definition jobCell : Handle := listing (plain "div" []) selInteractive [jobSpan].

Definition companyAnchor : Handle := leaf (plain "a" ["zp_REh41"]).
Definition companyCell : Handle := listing (plain "div" []) selInteractive [companyAnchor].

Definition emailSpan : Handle := leaf (plain "span" ["zp_CaeaN"; "zp_JTaUA"]).
Definition accessBtn : Handle := leaf (plain "button" []).
Definition emailCellBoth : Handle :=
  answering (plain "div" []) [(selEmailSpan, emailSpan); (selAccessBtn, accessBtn)].
Definition emailCellGated : Handle :=
  answering (plain "div" []) [(selAccessBtn, accessBtn)].

Definition linkedInLink : Handle := leaf (plain "a" []).
Definition linkedInCell : Handle := answering (plain "div" []) [(selLinkedIn, linkedInLink)].

(** *** A row of 13 cells with name and job title only *)

Definition cellsNameJob : list Handle :=
  [ emptyCell; nameCell; jobCell; emptyCell; emptyCell; emptyCell; emptyCell;
    emptyCell; emptyCell; emptyCell; emptyCell; emptyCell; emptyCell ].

Definition rowNameJob : Handle := rowOf ["zp_Uiy0Rabcdef"] cellsNameJob.

Definition pageNameJob : Page :=
  pageOf [ (rowSelector0, [rowNameJob]);
           ("div.zp_Uiy0Rabcdef", [rowNameJob]);
           (selNameTestid, [nameAnchor]);
           ("span.zp_FEm_X", [jobSpan]) ].

(** What mineSelectors returns on this page and on [pageFull]: the row class
    alone. *)
Definition minedRowOnly : MinedSelectors :=
  [ (rowClass, Some "div.zp_Uiy0Rabcdef") ].

(** An object with the row class and the two fields of the row. *)
Definition minedNameJob : MinedSelectors :=
  [ (rowClass, Some "div.zp_Uiy0Rabcdef");
    (name, Some selNameTestid);
    (jobTitle, Some "span.zp_FEm_X") ].

(** The same with a fourth entry that holds null. *)
Definition minedNameJobNull : MinedSelectors :=
  [ (rowClass, Some "div.zp_Uiy0Rabcdef");
    (name, Some selNameTestid);
    (jobTitle, Some "span.zp_FEm_X");
    (phoneVisible, None) ].

(** *** A full row: name, job title, company, email with access button, LinkedIn *)

Definition cellsFull : list Handle :=
  [ emptyCell; nameCell; jobCell; companyCell; emailCellBoth; emptyCell; emptyCell;
    linkedInCell; emptyCell; emptyCell; emptyCell; emptyCell; emptyCell ].

Definition rowFull : Handle := rowOf ["zp_short"; "zp_Uiy0Rabcdef"; "zp_Uiy0Rabcdefghijkl"] cellsFull.

Definition pageFull : Page :=
  pageOf [ (rowSelector0, [rowFull]);
           (selNameTestid, [nameAnchor]);
           ("span.zp_FEm_X", [jobSpan]);
           ("a.zp_REh41", [companyAnchor]);
           ("span.zp_CaeaN", [emailSpan]);
           (selAccessBtn, [accessBtn]);
           (selLinkedIn, [linkedInLink]) ].

(** An object with the row class and an entry for each of these fields. *)
Definition minedFull : MinedSelectors :=
  [ (rowClass, Some "div.zp_Uiy0Rabcdef");
    (name, Some selNameTestid);
    (jobTitle, Some "span.zp_FEm_X");
    (companyName, Some "a.zp_REh41");
    (emailRequiresAccess, Some selAccessBtn);
    (email, Some "span.zp_CaeaN");
    (linkedIn, Some selLinkedIn) ].

(** *** A row without a long zp_ class, whose access button and LinkedIn link
    resolve to a hidden first match *)

Definition cellsGated : list Handle :=
  [ emptyCell; nameCell; jobCell; companyCell; emailCellGated; emptyCell; emptyCell;
    linkedInCell; emptyCell; emptyCell; emptyCell; emptyCell; emptyCell ].

Definition rowGated : Handle := rowOf ["zp_Uiy0R"] cellsGated.

Definition pageGated : Page :=
  pageOf [ (rowSelector0, [rowGated]);
           (selNameTestid, [nameAnchor]);
           ("span.zp_FEm_X", [jobSpan]);
           ("a.zp_REh41", [companyAnchor]);
           (selAccessBtn, [hidden (plain "button" []); accessBtn]);
           (selLinkedIn, [hidden (plain "a" []); linkedInLink]) ].

(** An object of five fields and no rowClass entry. *)
Definition minedGated : MinedSelectors :=
  [ (name, Some selNameTestid);
    (jobTitle, Some "span.zp_FEm_X");
    (companyName, Some "a.zp_REh41");
    (emailRequiresAccess, Some selAccessBtn);
    (linkedIn, Some selLinkedIn) ].

(** *** Ten fields and the row class, seven or six of the fields resolving *)

Definition minedTen : MinedSelectors :=
  [ (rowClass, Some "div.zp_Uiy0Rabcdef");
    (name, Some "a.zp_field01");
    (jobTitle, Some "span.zp_field02");
    (companyName, Some "a.zp_field03");
    (emailRequiresAccess, Some "button.zp_field04");
    (email, Some "span.zp_field05");
    (phoneVisible, Some "span.zp_field06");
    (phoneRequestLink, Some "span.zp_field06");
    (linkedIn, Some "a.zp_field08");
    (location, Some "span.zp_field09");
    (employeeCount, Some "span.zp_field10") ].

(** A page on which exactly the listed selectors have a visible match. *)
Definition visibleAt (selectors : list string) : Page :=
  pageOf (map (fun s => (s, [leaf (plain "span" [])])) selectors).

Definition pageSeven : Page :=
  visibleAt [ "a.zp_field01"; "span.zp_field02"; "a.zp_field03"; "button.zp_field04";
              "span.zp_field05"; "a.zp_field08"; "span.zp_field09" ].

Definition pageSix : Page :=
  visibleAt [ "a.zp_field01"; "span.zp_field02"; "a.zp_field03"; "button.zp_field04";
              "span.zp_field05"; "a.zp_field08" ].

(** *** A page whose first row selector matches a three-cell row *)

Definition rowSummary : Handle :=
  rowOf ["zp_groupsummary"] [emptyCell; emptyCell; emptyCell].

Definition pageSummaryFirst : Page :=
  pageOf [ (rowSelector0, [rowSummary]);
           (rowSelector2, [rowFull; rowFull]) ].

(** *** selectors.ts *)

(** The [table] object of the current configuration. *)
Definition currentTable : TableObject :=
  mkTableObject
    (Some [quoted rowSelector0; quoted rowSelector1; quoted rowSelector2])
    [ ("cell", quoted selDivCell);
      ("name", quoted (selNameTestid ++ " span.zp_CaeaN"));
      ("jobTitle", quoted "span.zp_FEm_X");
      ("companyName", quoted "a.zp_REh41 span.zp_CaeaN");
      ("email", quoted "span.zp_CaeaN.zp_JTaUA");
      ("emailRequiresAccess", quoted selAccessBtn);
      ("phoneRequestLink", quoted ("a.zp_BCsLt:has-text(" ++ dq ++ "Request" ++ dq ++ ")"));
      ("phoneVisible", quoted "span.zp_CaeaN");
      ("linkedIn", quoted selLinkedIn);
      ("location", quoted "span.zp_FEm_X");
      ("employeeCount", quoted "span.zp_Vnh4L");
      ("nicheTags", quoted "span.zp_z4aAi") ].



(** selectors.ts as the repository has it: at the top level of SELECTORS,
    [table] is a get accessor that returns [this.current.table]. *)
Definition repositoryFile : SourceFile := mkSourceFile [] TableAccessor.

Definition disk0 : Disk := mkDisk (Some repositoryFile) None.

(** A selectors.ts of the shape that updateSelectors navigates: [table] is a
    property of SELECTORS whose initialiser is an object literal, here with
    the entries of the current configuration. *)
Definition flatFile : SourceFile := mkSourceFile [] (TableProperty currentTable).

Definition flatDisk : Disk := mkDisk (Some flatFile) None.


(** The flat file after one update with [minedFull], and after a second. *)
Definition firstUpdate : Disk * Result (list Change) :=
  updateSelectors (Ok tt) minedFull "2025-01-01T00:00:00.000Z" flatDisk.

Definition disk1 : Disk := fst firstUpdate.




(** *** A monitoring run: no modal, a five-cell first row, no pagination *)

Definition probe (found : bool) (n : nat) (what : string) : SelectorTestResult :=
  mkResult found n what None None.

Definition runShortRow : list CategoryResults :=
  [ mkCategory "LOGIN PAGE"
      [ probe true 1 "Email input field";
        probe true 1 "Password input field";
        probe true 1 "Login submit button" ];
    mkCategory "POST-LOGIN"
      [ probe true 1 "Main app container";
        probe false 0 "Modal popups" ];
    mkCategory "DATA TABLE"
      [ mkResult true 25 "Data table rows (Check if data loaded)" None (Some rowSelector0);
        probe true 5 "Table cells in first row";
        probe false 5 "Insufficient cells found in first row (Expected >= 10)" ];
    mkCategory "NAVIGATION"
      [ probe false 0 "Next page button";
        probe false 0 "Page number input" ] ].

End Fixtures.

(** ** DriftMonitor: the probes and the recommendation of the report *)

Module Probes.
Import Monitor.

(** testSelector on the page: the wait decides [exists]; a timeout is caught
    and gives the failed result.  The page answers a wait as it does with
    the timeout of the call. *)
Definition testSelector (page : Page) (selector description : string)
    : SelectorTestResult :=
  if waitForSelector page selector
  then mkResult true (List.length (locator page selector)) description None None
  else mkResult false 0 description None None.

(** testMultipleSelectors: the loop over the candidates, [continue] on a
    timeout, the failed result after the loop. *)
Fixpoint testMultipleSelectors (page : Page) (selectors : list string)
    (description : string) : SelectorTestResult :=
  match selectors with
  | [] => mkResult false 0 description None None
  | selector :: rest =>
      if waitForSelector page selector
      then mkResult true (List.length (locator page selector)) description None
                    (Some selector)
      else testMultipleSelectors page rest description
  end.

(** The branch [if (failed > 0)] of the recommendations of generateReport:
    true for the three lines that ask to review and to run the miner, false
    for the line that reports the selectors stable. *)
Definition recommendsMining (cats : list CategoryResults) : bool :=
  (0 <? failed (reportCounters cats))%nat.

End Probes.

(** ** The scraper: first and last name of a row *)

Module NameParts.
Import JS.

(** [s.split(sep)] for a one-character separator: the pieces between the
    separators, empty pieces included; the empty string gives one empty
    piece. *)
Fixpoint split (sep : ascii) (s : string) : list string :=
  match s with
  | EmptyString => [EmptyString]
  | String c rest =>
      if Ascii.eqb c sep then EmptyString :: split sep rest
      else
        match split sep rest with
        | piece :: pieces => String c piece :: pieces
        | [] => [String c EmptyString]
        end
  end.

(** [fullNameRaw.split(' ').filter(Boolean)] *)
Definition nameParts (fullNameRaw : string) : list string :=
  List.filter (fun piece => truthy (Some piece)) (split " "%char fullNameRaw).

(** [nameParts[0] || 'N/A'] *)
Definition firstName (fullNameRaw : string) : string :=
  match nameParts fullNameRaw with
  | part :: _ => if truthy (Some part) then part else "N/A"
  | [] => "N/A"
  end.

(** [nameParts.slice(1).join(' ') || 'N/A'] *)
Definition lastName (fullNameRaw : string) : string :=
  let joined := join " " (tl (nameParts fullNameRaw)) in
  if truthy (Some joined) then joined else "N/A".

End NameParts.

(** ** The scraper: where a run starts and how far it gets *)

Module Crawl.

Definition MAX_PAGES_TO_SCRAPE : nat := 5.

(** setupPersistence: the start page it returns and the stored last page
    after it.  [stored] is the value under LAST_SCRAPED_PAGE, [None] for
    null or nothing stored. *)
Definition setupPersistence (resetScrape : bool) (stored : option nat)
    : nat * option nat :=
  if resetScrape then (1%nat, None)
  else
    let start := match stored with
                 | Some (S n) => (S n + 1)%nat
                 | _ => 1%nat
                 end in
    (start, stored).

(** How the body of the page loop ends for a page: the navigation throws,
    scrapeCurrentPage throws, saving the progress throws, or the body runs
    to its end. *)
Inductive PageOutcome := GotoThrows | ScrapeThrows | SaveThrows | PageDone.

Record CrawlState := mkCrawlState {
    lastScrapedPage : option nat;
    scrapedPages : list nat
  }.

(** The loop [for (pageNum = startPage; pageNum < finalPage; pageNum++)]
    with [remaining = finalPage - pageNum]; any throw breaks the loop.
    [scrapedPages] lists the pages on which scrapeCurrentPage returned. *)
Fixpoint crawlFrom (outcome : nat -> PageOutcome) (remaining pageNum : nat)
    (st : CrawlState) : CrawlState :=
  match remaining with
  | O => st
  | S remaining' =>
      match outcome pageNum with
      | GotoThrows => st
      | ScrapeThrows => st
      | SaveThrows =>
          mkCrawlState (lastScrapedPage st) (scrapedPages st ++ [pageNum])
      | PageDone =>
          crawlFrom outcome remaining' (S pageNum)
                    (mkCrawlState (Some pageNum) (scrapedPages st ++ [pageNum]))
      end
  end.

(** One run of the scraper once the login has gone through:
    setupPersistence, then the page loop. *)
Definition run (resetScrape : bool) (stored : option nat) (outcome : nat -> PageOutcome)
    : CrawlState :=
  let '(startPage, stored') := setupPersistence resetScrape stored in
  crawlFrom outcome MAX_PAGES_TO_SCRAPE startPage (mkCrawlState stored' []).

End Crawl.

(** ** Invariants used in the proofs *)

Module Invariants.
Import JS.

(** The stored text of a property holds a mined value: it is the value in
    single quotes, or it reads as the value once its quotes are removed. *)
Definition holdsValue (init v : string) : Prop :=
  init = quoted v \/ stripQuotes init = v.

(** The row selectors before and after an update: there is a list after
    exactly when there was one before; it has the same first entry, is at
    least as long, and agrees with the old one from the third entry on. *)
Definition rowSelectorsKept (old new : option (list string)) : Prop :=
  match old, new with
  | None, None => True
  | Some old, Some new =>
      head new = head old
      /\ (List.length old <= List.length new)%nat
      /\ forall i, (2 <= i)%nat -> (i < List.length old)%nat -> new !! i = old !! i
  | _, _ => False
  end.

End Invariants.

(** ** More sample data *)

Module MoreFixtures.
Import JS Miner Monitor Probes Crawl Fixtures.

(** A page on which only the listed selectors appear. *)
Definition appearing (selectors : list string) (answers : list (string * list Handle))
    : Page :=
  mkPage (fun s => existsb (String.eqb s) selectors) (locator (pageOf answers)).

(** Candidates A, B, C with 0, 2 and 5 matches. *)
Definition pageFirstMatch : Page :=
  appearing ["B"; "C"]
    [ ("B", [emptyCell; emptyCell]);
      ("C", [emptyCell; emptyCell; emptyCell; emptyCell; emptyCell]) ].

(** A monitoring run made of probe results only. *)
Definition runProbesOnly : list CategoryResults :=
  [ mkCategory "POST-LOGIN"
      [ testMultipleSelectors pageFirstMatch ["A"; "D"] "Modal popups" ];
    mkCategory "NAVIGATION"
      [ testSelector pageFirstMatch "A" "Next page button";
        testSelector pageFirstMatch "D" "Page number input";
        testSelector pageFirstMatch "E" "Page size";
        testSelector pageFirstMatch "B" "Rows" ] ].

(** Pages 6 and 7 run to their end, page 8 fails to load. *)
Definition outcomeStopsAt8 (pageNum : nat) : PageOutcome :=
  if (pageNum <? 8)%nat then PageDone else GotoThrows.

(** A mined object whose values hold no quote character, and the disk after
    a first update with it. *)
Definition minedPlain : MinedSelectors :=
  [ (rowClass, Some "div.zp_Uiy0Rabcdef");
    (jobTitle, Some "span.zp_FEm_Y");
    (companyName, Some "a.zp_REh41");
    (email, Some "span.zp_CaeaN");
    (nicheTags, Some "span.zp_z4aAi") ].

Definition diskPlain1 : Updater.Disk :=
  fst (Updater.updateSelectors (Ok tt) minedPlain "2025-01-01T00:00:00.000Z" flatDisk).

(** A table object that lacks some of the mined properties. *)
Definition sparseTable : Updater.TableObject :=
  Updater.mkTableObject
    (Some [quoted rowSelector0; quoted rowSelector1])
    [ ("cell", quoted selDivCell);
      ("jobTitle", quoted "span.zp_old") ].

Definition sparseDisk : Updater.Disk :=
  Updater.mkDisk
    (Some (Updater.mkSourceFile [] (Updater.TableProperty sparseTable))) None.

(** Five fields without a rowClass entry, three of which resolve on
    [pageThreeOfFive]. *)
Definition minedFive : MinedSelectors :=
  [ (name, Some "a.zp_field01");
    (jobTitle, Some "span.zp_field02");
    (companyName, Some "a.zp_field03");
    (email, Some "span.zp_field05");
    (linkedIn, Some "a.zp_field08") ].

Definition pageThreeOfFive : Page :=
  visibleAt [ "a.zp_field01"; "span.zp_field02"; "a.zp_field03" ].

End MoreFixtures.

(** * Properties *)

(** Side conditions of the form: two distinct keys differ. *)
Ltac other_key := first [discriminate | intros; discriminate].

(** ** Objects as association lists *)

Section KeyLemmas.
Implicit Types (k : Key) (v : option string) (mined : MinedSelectors).

Lemma getKey_setKey_eq k v mined : getKey k (setKey k v mined) = Some v.
Proof.
  induction mined as [|[k' v'] rest IH]; simpl.
  - rewrite bool_decide_eq_true_2; reflexivity.
  - destruct (decide (k' = k)) as [->|Hne].
    + rewrite bool_decide_eq_true_2 by reflexivity. simpl.
      rewrite bool_decide_eq_true_2; reflexivity.
    + rewrite bool_decide_eq_false_2 by assumption. simpl.
      rewrite bool_decide_eq_false_2 by assumption. exact IH.
Qed.

Lemma getKey_setKey_ne k k' v mined :
  k <> k' -> getKey k (setKey k' v mined) = getKey k mined.
Proof.
  intros Hne. induction mined as [|[k0 v0] rest IH]; simpl.
  - rewrite bool_decide_eq_false_2; [reflexivity | congruence].
  - destruct (decide (k0 = k')) as [->|Hne'].
    + rewrite bool_decide_eq_true_2 by reflexivity. simpl.
      rewrite !bool_decide_eq_false_2 by congruence. reflexivity.
    + rewrite bool_decide_eq_false_2 by assumption. simpl.
      rewrite IH. reflexivity.
Qed.

Lemma keys_in_allKeys k : In k allKeys.
Proof. destruct k; simpl; tauto. Qed.

(** An object has at most the twelve keys of the interface. *)
Lemma mined_length_le_12 mined :
  NoDup (map fst mined) -> (List.length mined <= 12)%nat.
Proof.
  intros Hnd%NoDup_ListNoDup. rewrite <- (length_map fst mined).
  change 12%nat with (List.length allKeys).
  apply NoDup_incl_length; [exact Hnd | intros k _; apply keys_in_allKeys].
Qed.

End KeyLemmas.

(** ** LocatorGenerator *)

Section GeneratorProperties.
Import JS Generator Fixtures.

Lemma walk_firstn budget els : walk budget (firstn budget els) = walk budget els.
Proof.
  revert els. induction budget as [|n IH]; intros [|e els]; simpl; try reflexivity.
  destruct (generateSelector e); [reflexivity | apply IH].
Qed.

(** C6. findBestSelector tries the element and its first two ancestors only:
    truncating the ancestry after the second ancestor never changes the
    result.  On [deepSpan], whose third ancestor carries a data-testid that
    generateSelector turns into a selector, the result is none, while the
    same span one level closer to that anchor gets the selector. *)
Theorem findBestSelector_reaches_two_ancestors :
  (forall h : Handle,
     findBestSelector h =
     findBestSelector (mkHandle (element h) (firstn 2 (ancestors h)) (isVisible h)
                                (textContent h) (query h) (queryAll h)))
  /\ findBestSelector deepSpan = None
  /\ nth_error (ancestors deepSpan) 2 = Some nameAnchorEl
  /\ generateSelector nameAnchorEl = Some selNameTestid
  /\ findBestSelector nearSpan = Some selNameTestid.
Proof.
  split.
  - intros h. unfold findBestSelector. cbn [element ancestors].
    rewrite <- (walk_firstn 3 (element h :: ancestors h)). reflexivity.
  - repeat split; reflexivity.
Qed.

End GeneratorProperties.

(** ** FieldMiner *)

Section MinerProperties.
Import JS Generator Miner Scraper Fixtures.

(** The scraper accepts a candidate only when its first match has ten cells. *)
Lemma findRows_first_row_has_ten_cells page cellSel candidatesList selector rows :
  findRows page cellSel candidatesList = (Some selector, rows) ->
  In selector candidatesList /\ rows = locator page selector /\
  exists first rest, rows = first :: rest /\
                     (10 <= List.length (queryAll first cellSel))%nat.
Proof.
  induction candidatesList as [|s rest IH]; cbn [findRows In]; [discriminate|].
  destruct (locator page s) as [|first others] eqn:Hloc.
  - intros H. destruct (IH H) as (Hin & Hrows & Hex). auto.
  - destruct (10 <=? List.length (queryAll first cellSel))%nat eqn:Hlen.
    + intros H. injection H as <- <-. split; [auto|]. split; [congruence|].
      exists first, others. split; [reflexivity|]. apply Nat.leb_le, Hlen.
    + intros H. destruct (IH H) as (Hin & Hrows & Hex). auto.
Qed.

(** The miner accepts the first candidate with any match at all. *)
Lemma findRowLocator_first_match page candidates selector row :
  findRowLocator page candidates = Some (selector, row) ->
  exists before after others,
    candidates = (before ++ selector :: after)%list /\
    (forall s, In s before -> locator page s = []) /\
    locator page selector = row :: others.
Proof.
  induction candidates as [|s rest IH]; cbn [findRowLocator]; [discriminate|].
  destruct (locator page s) as [|first others] eqn:Hloc.
  - intros H. destruct (IH H) as (before & after & os & -> & Hb & Hl).
    exists (s :: before), after, os. split; [reflexivity|]. split; [|exact Hl].
    intros s' [<-|Hin]; auto.
  - intros H. injection H as <- <-.
    exists [], rest, others. split; [reflexivity|]. split; [intros s' []|exact Hloc].
Qed.

(** C1. On [pageSummaryFirst] the first configured row selector matches a
    row of three cells and the third one matches rows of thirteen cells.
    The scraper's row discovery skips the short row and settles on the third
    selector; mineSelectors takes the short row as the active row, and
    returns a result that is not empty: it holds the row class. *)
Theorem mineSelectors_accepts_row_before_counting_cells :
  findRowLocator pageSummaryFirst (rowSelectors currentT) = Some (rowSelector0, rowSummary)
  /\ List.length (queryAll rowSummary selRoleCell) = 3%nat
  /\ mineSelectors pageSummaryFirst currentT = Ok [(rowClass, Some "div.zp_groupsummary")]
  /\ fst (scrapeRowDiscovery pageSummaryFirst currentT) = Some rowSelector2
  /\ List.length (queryAll rowFull (cell currentT)) = 13%nat.
Proof. repeat split; reflexivity. Qed.

(** A cell that is a Locator: whatever the cell type, the iteration leaves
    the object as it was. *)
Lemma mineCell_on_locators page nodes mapping mined :
  mineCell page (map Locator nodes) mapping mined = mined.
Proof.
  destruct mapping as [cellIndex cellType]. unfold mineCell.
  rewrite list_lookup_fmap. destruct (nodes !! cellIndex) as [node|]; [|reflexivity].
  destruct cellType; reflexivity.
Qed.

Lemma mineCells_on_locators page nodes mined :
  mineCells page (map Locator nodes) mined = mined.
Proof.
  unfold mineCells. induction cellMapping as [|mapping rest IH]; [reflexivity|].
  cbn [fold_left]. rewrite mineCell_on_locators. exact IH.
Qed.

(** What mineSelectors returns once a row is found. *)
Lemma mineSelectors_with_row page T mined selector row :
  mineSelectors page T = Ok mined ->
  findRowLocator page (rowSelectors T) = Some (selector, row) ->
  mined = mineRowClass row [].
Proof.
  unfold mineSelectors. intros H Hrow. rewrite Hrow in H.
  destruct (negb (waitForSelector page selTableLoaded)); [discriminate|].
  destruct (negb (isVisible row)); [discriminate|].
  rewrite mineCells_on_locators in H.
  destruct (List.length (map Locator (queryAll row selRoleCell)) <? 10)%nat; congruence.
Qed.

Lemma isRowClass_truthy c : isRowClass c = true -> truthy (Some c) = true.
Proof. destruct c; [discriminate | reflexivity]. Qed.

Lemma getKey_mineRowClass row :
  getKey rowClass (mineRowClass row []) =
    match rowClassOf (element row) with
    | Some c => Some (Some ("div." ++ c))
    | None => None
    end.
Proof.
  unfold mineRowClass, rowClassOf.
  destruct (List.find isRowClass (classList (element row))) as [c|] eqn:Hfind.
  - apply find_some in Hfind as [_ Hc]. rewrite (isRowClass_truthy c Hc). reflexivity.
  - reflexivity.
Qed.

Lemma getKey_mineRowClass_other k row :
  k <> rowClass -> getKey k (mineRowClass row []) = None.
Proof.
  intros Hk. unfold mineRowClass.
  destruct (truthy (rowClassOf (element row))); [|reflexivity].
  destruct (rowClassOf (element row)); [|reflexivity].
  cbn. rewrite bool_decide_eq_false_2; [reflexivity | congruence].
Qed.

Lemma find_first_match {A} (f : A -> bool) pre x post :
  f x = true -> (forall y, In y pre -> f y = false) ->
  List.find f (pre ++ x :: post) = Some x.
Proof.
  intros Hx. induction pre as [|y pre IH]; intros Hpre; cbn.
  - rewrite Hx. reflexivity.
  - rewrite (Hpre y) by (left; reflexivity). apply IH. intros z Hz. apply Hpre. right. exact Hz.
Qed.

Lemma find_no_match {A} (f : A -> bool) l :
  (forall y, In y l -> f y = false) -> List.find f l = None.
Proof.
  induction l as [|y l IH]; intros Hl; cbn; [reflexivity|].
  rewrite (Hl y) by (left; reflexivity). apply IH. intros z Hz. apply Hl. right. exact Hz.
Qed.

(** C7 (amended). Once mineSelectors has found its row and returns, the
    rowClass entry is [div.] followed by the first class of the row element,
    in class-list order, that starts with [zp_] and is longer than ten
    characters; when no class of the row qualifies, no rowClass entry is
    recorded. *)
Theorem rowClass_is_first_qualifying_class page T mined selector row :
  mineSelectors page T = Ok mined ->
  findRowLocator page (rowSelectors T) = Some (selector, row) ->
  (forall pre c post,
      classList (element row) = (pre ++ c :: post)%list ->
      isRowClass c = true ->
      (forall x, In x pre -> isRowClass x = false) ->
      getKey rowClass mined = Some (Some ("div." ++ c)))
  /\ ((forall x, In x (classList (element row)) -> isRowClass x = false) ->
      getKey rowClass mined = None).
Proof.
  intros Hmined Hrow.
  assert (Hkey : getKey rowClass mined =
                 match rowClassOf (element row) with
                 | Some c => Some (Some ("div." ++ c))
                 | None => None
                 end).
  { rewrite (mineSelectors_with_row _ _ _ _ _ Hmined Hrow).
    apply getKey_mineRowClass. }
  split.
  - intros pre c post Hcl Hc Hpre. rewrite Hkey. unfold rowClassOf. rewrite Hcl.
    rewrite (find_first_match isRowClass pre c post Hc Hpre). reflexivity.
  - intros Hnone. rewrite Hkey. unfold rowClassOf.
    rewrite (find_no_match isRowClass _ Hnone). reflexivity.
Qed.

Lemma rowClass_is_first_qualifying_class_witness :
  getKey rowClass minedRowOnly = Some (Some "div.zp_Uiy0Rabcdef").
Proof.
  apply (proj1 (rowClass_is_first_qualifying_class
                  pageFull currentT minedRowOnly rowSelector0 rowFull
                  eq_refl eq_refl)
               ["zp_short"] "zp_Uiy0Rabcdef" ["zp_Uiy0Rabcdefghijkl"]).
  - reflexivity.
  - reflexivity.
  - intros x [<-|[]]. reflexivity.
Defined.

(** C7 (as stated, refuted). The row of [pageFull] carries a qualifying class
    of twenty characters after one of fourteen; the rowClass entry mined is
    the one of fourteen, not the longest. *)
Lemma rowClass_is_not_the_longest :
  mineSelectors pageFull currentT = Ok minedRowOnly
  /\ getKey rowClass minedRowOnly = Some (Some "div.zp_Uiy0Rabcdef")
  /\ SpecWords.longestRowClass (classList (element rowFull)) = Some "zp_Uiy0Rabcdefghijkl"
  /\ rowClassOf (element rowFull) <> SpecWords.longestRowClass (classList (element rowFull)).
Proof. repeat split; try reflexivity. discriminate. Qed.

(** C8. The email cell of [pageFull] holds the email span and the access
    button, the one of [pageGated] the access button alone.  The cell that
    mineSelectors hands to its switch is a Locator, so the first [$] of the
    email case throws and the catch of the iteration swallows it: the object
    returned has no emailRequiresAccess entry and no email entry, on these
    pages and on every other.  Given an element handle for the same gated
    cell, the switch does record the access-gated entry. *)
Theorem access_gated_email_is_not_recorded :
  (cellsFull !! 4%nat = Some emailCellBoth
   /\ query emailCellBoth selAccessBtn = Some accessBtn
   /\ mineSwitch pageFull (Locator emailCellBoth) email minedRowOnly = Throws
   /\ mineSelectors pageFull currentT = Ok minedRowOnly
   /\ getKey emailRequiresAccess minedRowOnly = None
   /\ getKey email minedRowOnly = None)
  /\ (cellsGated !! 4%nat = Some emailCellGated
      /\ query emailCellGated selAccessBtn = Some accessBtn
      /\ mineSelectors pageGated currentT = Ok []
      /\ mineSwitch pageGated (ElementHandle emailCellGated) email []
         = Ok (None, [(emailRequiresAccess, Some selAccessBtn)]))
  /\ (forall page T mined,
        mineSelectors page T = Ok mined ->
        getKey emailRequiresAccess mined = None /\ getKey email mined = None).
Proof.
  split; [repeat split; reflexivity|]. split; [repeat split; reflexivity|].
  intros page T mined Hmined.
  destruct (findRowLocator page (rowSelectors T)) as [[selector row]|] eqn:Hrow.
  - rewrite (mineSelectors_with_row _ _ _ _ _ Hmined Hrow).
    split; apply getKey_mineRowClass_other; discriminate.
  - unfold mineSelectors in Hmined. rewrite Hrow in Hmined.
    destruct (negb (waitForSelector page selTableLoaded)); [discriminate|].
    injection Hmined as <-. split; reflexivity.
Qed.

End MinerProperties.

(** ** LocatorValidator *)

Section ValidatorProperties.
Import JS Validator Fixtures MoreFixtures.

Lemma validCount_le_length page mined :
  (validCount page mined <= List.length mined)%nat.
Proof.
  induction mined as [|[k v] rest IH]; cbn [validCount List.length]; [lia|].
  destruct (negb (truthy v) || bool_decide (k = rowClass)); [lia|].
  destruct v as [s|]; [destruct (resolves page s)|]; lia.
Qed.

(** The binary64 comparison agrees with the exact one on every pair of
    counts that an object of at most twelve keys can give. *)
Lemma rate_table :
  forallb (fun t =>
    forallb (fun v =>
      Bool.eqb (PrimFloat.leb threshold
                  (PrimFloat.div (num (Z.of_nat v)) (num (Z.of_nat t - 1))))
               (7 * (t - 1) <=? 10 * v)%nat)
      (seq 0 13))
    (seq 2 11) = true.
Proof. vm_compute. reflexivity. Qed.

Lemma rate_exact (v t : nat) :
  (2 <= t <= 12)%nat -> (v <= 12)%nat ->
  PrimFloat.leb threshold (PrimFloat.div (num (Z.of_nat v)) (num (Z.of_nat t - 1)))
  = (7 * (t - 1) <=? 10 * v)%nat.
Proof.
  intros Ht Hv. pose proof rate_table as H.
  rewrite forallb_forall in H.
  specialize (H t ltac:(apply in_seq; lia)).
  rewrite forallb_forall in H.
  specialize (H v ltac:(apply in_seq; lia)).
  apply Bool.eqb_prop in H. exact H.
Qed.

(** When the object has a rowClass entry and every value is a non-empty
    string, the divisor is the number of entries validated. *)
Lemma divisor_with_rowClass mined v :
  NoDup (map fst mined) ->
  getKey rowClass mined = Some v ->
  (forall k w, In (k, w) mined -> truthy w = true) ->
  (totalCount mined - 1)%nat = SpecWords.attemptedCount mined.
Proof.
  unfold totalCount, SpecWords.attemptedCount.
  induction mined as [|[k w] rest IH]; cbn [getKey]; [discriminate|].
  intros Hnd Hget Hall. cbn [map fst] in Hnd. apply NoDup_cons in Hnd as [Hk Hnd].
  cbn [List.filter List.length fst snd]. rewrite (Hall k w) by (left; reflexivity).
  destruct (decide (k = rowClass)) as [->|Hne].
  - rewrite bool_decide_eq_true_2 by reflexivity. cbn [negb andb].
    assert (Hrest : List.filter
              (fun e => truthy (snd e) && negb (bool_decide (fst e = rowClass))) rest = rest).
    { clear IH Hget Hnd. induction rest as [|[k' w'] rest IH]; [reflexivity|].
      cbn [List.filter fst snd]. rewrite (Hall k' w') by (right; left; reflexivity).
      rewrite bool_decide_eq_false_2.
      - cbn. f_equal. apply IH.
        + intros Hin. apply Hk. cbn. right. exact Hin.
        + intros k0 w0 [Heq|Hin]; apply (Hall k0 w0); [left|right; right]; assumption.
      - intros ->. apply Hk. cbn. left. }
    rewrite Hrest. cbn. lia.
  - rewrite bool_decide_eq_false_2 in Hget |- * by assumption. cbn [negb andb List.length].
    rewrite <- IH; [|exact Hnd|exact Hget|intros k0 w0 Hin; apply (Hall k0 w0); right; exact Hin].
    destruct rest; [discriminate|cbn; lia].
Qed.

(** The threshold as validateSelectors applies it.  With [v] the entries
    found valid and [n] the count the validator divides by (the number of
    entries less one), an object of at least two entries is accepted
    exactly when v/n >= 0.70, that is 7n <= 10v; 7 of 10 is accepted and
    6 of 10 is rejected.  That [n] is the number of attempted fields when
    the object has its rowClass entry and every value is a non-empty
    string. *)
Theorem validateSelectors_threshold_inclusive page mined :
  NoDup (map fst mined) ->
  (2 <= totalCount mined)%nat ->
  (validateSelectors page mined = true <->
   (7 * (totalCount mined - 1) <= 10 * validCount page mined)%nat)
  /\ (validCount page mined = 7%nat -> (totalCount mined - 1 = 10)%nat ->
      validateSelectors page mined = true)
  /\ (validCount page mined = 6%nat -> (totalCount mined - 1 = 10)%nat ->
      validateSelectors page mined = false)
  /\ (forall rc, getKey rowClass mined = Some rc ->
      (forall k w, In (k, w) mined -> truthy w = true) ->
      (totalCount mined - 1)%nat = SpecWords.attemptedCount mined).
Proof.
  intros Hnd Hlen.
  pose proof (mined_length_le_12 mined Hnd) as H12.
  pose proof (validCount_le_length page mined) as Hv.
  assert (Hrate : validateSelectors page mined =
                  (7 * (totalCount mined - 1) <=? 10 * validCount page mined)%nat).
  { unfold validateSelectors, validityRate. apply rate_exact; unfold totalCount in *; lia. }
  rewrite Hrate. split; [apply Nat.leb_le|].
  split; [intros H7 H10; rewrite H7, H10; reflexivity|].
  split; [intros H6 H10; rewrite H6, H10; reflexivity|].
  intros rc Hrc Hall. exact (divisor_with_rowClass mined rc Hnd Hrc Hall).
Qed.

Lemma validateSelectors_threshold_inclusive_witness :
  validCount pageSeven minedTen = 7%nat
  /\ SpecWords.attemptedCount minedTen = 10%nat
  /\ (totalCount minedTen - 1 = 10)%nat
  /\ validateSelectors pageSeven minedTen = true.
Proof.
  split; [reflexivity|]. split; [reflexivity|]. split; [reflexivity|].
  apply (proj1 (proj2 (validateSelectors_threshold_inclusive pageSeven minedTen
                         ltac:(apply NoDup_ListNoDup; repeat constructor;
                               cbn; intuition discriminate)
                         ltac:(cbn; lia))));
    reflexivity.
Defined.

Example validateSelectors_six_of_ten :
  validCount pageSix minedTen = 6%nat /\ validateSelectors pageSix minedTen = false.
Proof. split; reflexivity. Qed.

(** C2. The validator applies the bound of 0.70 to the valid entries
    divided by the number of entries less one, which is not always the
    number of attempted fields.  [minedFive] has five fields and no rowClass
    entry; on [pageThreeOfFive] three of the five resolve: the validator
    computes 3/4 and accepts, where 3 valid out of 5 attempted is 0.6, below
    the bound.  With the rowClass entry and ten non-empty fields, 7 valid
    are accepted and 6 are rejected. *)
Theorem validateSelectors_accepts_three_of_five :
  (getKey rowClass minedFive = None
   /\ totalCount minedFive = 5%nat
   /\ SpecWords.attemptedCount minedFive = 5%nat
   /\ validCount pageThreeOfFive minedFive = 3%nat
   /\ validityRate pageThreeOfFive minedFive = PrimFloat.div 3 4
   /\ validateSelectors pageThreeOfFive minedFive = true
   /\ SpecWords.accepted pageThreeOfFive minedFive = false)
  /\ (SpecWords.attemptedCount minedTen = 10%nat
      /\ validCount pageSeven minedTen = 7%nat
      /\ validateSelectors pageSeven minedTen = true
      /\ validCount pageSix minedTen = 6%nat
      /\ validateSelectors pageSix minedTen = false).
Proof. repeat split; vm_compute; reflexivity. Qed.

(** An entry that holds null is skipped by the loop and still counted in
    the divisor: with the row class, two fields that both resolve and one
    null entry, the rate is 2/3 and the object is rejected. *)
Example validateSelectors_counts_null_entries :
  getKey phoneVisible minedNameJobNull = Some None
  /\ validCount pageNameJob minedNameJobNull = 2%nat
  /\ validityRate pageNameJob minedNameJobNull = PrimFloat.div 2 3
  /\ validateSelectors pageNameJob minedNameJobNull = false.
Proof. repeat split; vm_compute; reflexivity. Qed.

(** C3. [minedGated] has five fields and no rowClass entry.  On [pageGated]
    the validator resolves all five and finds three valid, yet it divides
    by four: its rate is 3/4 and it accepts, where three valid out of the
    five attempted is 0.6 and is rejected. *)
Theorem validityRate_divides_by_one_entry_less :
  getKey rowClass minedGated = None
  /\ totalCount minedGated = 5%nat
  /\ SpecWords.attemptedCount minedGated = 5%nat
  /\ validCount pageGated minedGated = 3%nat
  /\ validityRate pageGated minedGated = PrimFloat.div 3 4
  /\ validateSelectors pageGated minedGated = true
  /\ SpecWords.validity pageGated minedGated = PrimFloat.div 3 5
  /\ SpecWords.accepted pageGated minedGated = false.
Proof. repeat split; vm_compute; reflexivity. Qed.

End ValidatorProperties.

(** ** ConfigUpdater *)

Section UpdaterProperties.
Import JS Miner Updater Invariants Fixtures.


Lemma updateProperty_changes props changes entry :
  updateProperty (props, changes) entry = (props, changes)
  \/ exists change, snd (updateProperty (props, changes) entry) = (changes ++ [change])%list.
Proof.
  destruct entry as [key value]. unfold updateProperty.
  destruct (bool_decide (key = rowClass) || negb (truthy value)); [left; reflexivity|].
  destruct (getProperty (keyName key) props) as [init|].
  - destruct (negb (String.eqb (stripQuotes init) _)); [right|left; reflexivity].
    eexists. reflexivity.
  - right. eexists. reflexivity.
Qed.

Lemma fold_updateProperty_changes entries props changes :
  exists new,
    snd (fold_left updateProperty entries (props, changes)) = (changes ++ new)%list
    /\ (new = [] -> fst (fold_left updateProperty entries (props, changes)) = props).
Proof.
  revert props changes. induction entries as [|e rest IH]; intros props changes;
    cbn [fold_left]; [exists []; rewrite app_nil_r; auto|].
  destruct (updateProperty_changes props changes e) as [Hsame|[change Hch]].
  - rewrite Hsame. apply IH.
  - destruct (updateProperty (props, changes) e) as [props' changes']. cbn [snd] in Hch.
    subst changes'. destruct (IH props' (changes ++ [change])%list) as (new & Hnew & _).
    exists (change :: new). split; [rewrite Hnew, <- app_assoc; reflexivity | discriminate].
Qed.

Lemma updateRowSelectors_frame mined arr :
  rowSelectorsKept arr (fst (updateRowSelectors mined arr))
  /\ (snd (updateRowSelectors mined arr) = [] -> fst (updateRowSelectors mined arr) = arr).
Proof.
  unfold updateRowSelectors, rowSelectorsKept.
  destruct arr as [elements|];
    [|destruct (truthy (valueOf rowClass mined)); cbn [fst snd]; auto].
  assert (Hsame : (head elements = head elements
                   /\ (List.length elements <= List.length elements)%nat
                   /\ forall i, (2 <= i)%nat -> (i < List.length elements)%nat ->
                                elements !! i = elements !! i)
                  /\ (@nil Change = [] -> Some elements = Some elements)).
  { repeat split; lia. }
  destruct (truthy (valueOf rowClass mined)); [|exact Hsame].
  destruct (1 <? List.length elements)%nat; [|exact Hsame].
  destruct elements as [|first [|slot later]]; try exact Hsame.
  change ((first :: slot :: later) !! 1%nat) with (Some slot). cbv beta iota zeta.
  destruct (negb (String.eqb (stripQuotes slot) _)); [|exact Hsame].
  cbn [fst snd]. split; [|discriminate].
  destruct later as [|third later]; cbn [List.length Nat.ltb Nat.leb].
  - split; [reflexivity|]. split; [cbn; lia|]. intros i Hi Hlt. cbn in Hlt. lia.
  - split; [reflexivity|]. split; [cbn; lia|].
    intros [|[|i]] Hi Hlt; [lia | lia | reflexivity].
Qed.

(** Edits that record no change leave the table as it was. *)
Lemma applyMined_no_change mined tbl :
  snd (applyMined mined tbl) = [] -> fst (applyMined mined tbl) = tbl.
Proof.
  unfold applyMined.
  destruct (updateRowSelectors_frame mined (rowSelectorsArray tbl)) as [_ Hrow].
  destruct (updateRowSelectors mined (rowSelectorsArray tbl)) as [arr rowChanges].
  destruct (fold_updateProperty_changes mined (properties tbl) rowChanges)
    as (new & Hnew & Hprops).
  destruct (fold_left updateProperty mined (properties tbl, rowChanges))
    as [props changes'].
  cbn [fst snd] in *. intros ->. symmetry in Hnew.
  apply app_eq_nil in Hnew as [-> ->].
  rewrite Hrow, Hprops by reflexivity. destruct tbl. reflexivity.
Qed.

(** On a file whose [table] is a property, the table that updateSelectors
    leaves on disk is the edited table in every case (when nothing changed
    the edits are empty), whatever the self-test does; the backup holds the
    file as it was. *)
Lemma updateSelectors_table selfTest mined now disk file tbl :
  selectorsFile disk = Some file ->
  tableMember file = TableProperty tbl ->
  exists hs,
    fst (updateSelectors selfTest mined now disk)
    = mkDisk (Some (mkSourceFile hs (TableProperty (fst (applyMined mined tbl)))))
             (Some file).
Proof.
  intros Hfile Hmember. unfold updateSelectors. rewrite Hfile, Hmember.
  pose proof (applyMined_no_change mined tbl) as Hid.
  destruct (applyMined mined tbl) as [tbl' changes]. cbn [fst snd] in *.
  destruct (0 <? List.length changes)%nat eqn:Hch; cbn [fst].
  - eexists. reflexivity.
  - exists (headers file). rewrite Hid by (destruct changes; [reflexivity | discriminate Hch]).
    destruct file as [hs member]. cbn in Hmember. subst member. reflexivity.
Qed.







End UpdaterProperties.

(** ** The request handler *)

Section PipelineProperties.
Import Miner Validator Updater Pipeline Fixtures.

(** C10. The handler validates and updates only when the mined object has
    more than three entries, the rowClass entry counted: with three or fewer
    it calls the miner alone, returns and leaves the disk untouched, and a
    run that called the validator or the updater had more than three
    entries.  [minedNameJob] has three entries (rowClass, name and jobTitle)
    whose two locators both resolve on [pageNameJob] and which the validator
    accepts there, and the handler's test on it stops the run after mining.
    On [pageNameJob] itself the miner returns the row class alone, which
    resolves, and the handler stops after mining. *)
Theorem requestHandler_skips_three_or_fewer :
  (forall selfTest page T now disk mined,
      mineSelectors page T = Ok mined ->
      (List.length mined <= 3)%nat ->
      requestHandler Arrived selfTest page T now disk = mkRun [CallMiner] disk (Ok tt))
  /\ (forall arrival selfTest page T now disk,
      In CallValidator (calls (requestHandler arrival selfTest page T now disk))
      \/ In CallUpdater (calls (requestHandler arrival selfTest page T now disk)) ->
      exists mined, mineSelectors page T = Ok mined /\ (3 < List.length mined)%nat)
  /\ (List.length minedNameJob = 3%nat
      /\ SpecWords.attemptedCount minedNameJob = 2%nat
      /\ validCount pageNameJob minedNameJob = 2%nat
      /\ validateSelectors pageNameJob minedNameJob = true
      /\ forall selfTest now disk,
           afterMining selfTest pageNameJob minedNameJob now disk
           = mkRun [CallMiner] disk (Ok tt))
  /\ (mineSelectors pageNameJob currentT = Ok minedRowOnly
      /\ resolves pageNameJob "div.zp_Uiy0Rabcdef" = true
      /\ forall selfTest now disk,
           requestHandler Arrived selfTest pageNameJob currentT now disk
           = mkRun [CallMiner] disk (Ok tt)).
Proof.
  split; [|split; [|split]].
  - intros selfTest page T now disk mined Hmined Hlen. unfold requestHandler, afterMining.
    rewrite Hmined. apply Nat.ltb_ge in Hlen. rewrite Hlen. reflexivity.
  - intros arrival selfTest page T now disk. unfold requestHandler, afterMining.
    destruct arrival; try (cbn; intuition discriminate).
    destruct (mineSelectors page T) as [mined|]; [|cbn; intuition discriminate].
    destruct (3 <? List.length mined)%nat eqn:Hlen.
    + intros _. exists mined. split; [reflexivity | apply Nat.ltb_lt, Hlen].
    + cbn. intuition discriminate.
  - repeat split; vm_compute; reflexivity.
  - repeat split; vm_compute; reflexivity.
Qed.

End PipelineProperties.

(** ** DriftMonitor *)

Section MonitorProperties.
Import Monitor Fixtures.

(** C9 (amended). handleSelectorFailures writes the warning that suggests
    auto-mining exactly when more than three probes have [exists] false and
    a count of zero, and the warning carries that number; it sets no flag
    and starts no miner: whatever the environment, all it produces is log
    lines, and the line about triggering the miner needs
    AUTO_MINE_ON_FAILURE set to true. *)
Theorem handleSelectorFailures_only_logs cats autoMineEnv :
  (forall n,
      In (LogWarning (SelectorsFailedSuggestingAutoMining n))
         (handleSelectorFailures cats autoMineEnv)
      <-> n = List.length
                (List.filter (fun r => negb (exists_ r) && (count r =? 0)%nat)
                             (flat_map results cats))
          /\ (3 < n)%nat)
  /\ ~ In SpawnMiner (handleSelectorFailures cats autoMineEnv)
  /\ (In (LogInfo TriggeringSelectorMiner) (handleSelectorFailures cats autoMineEnv) ->
      autoMineEnv = Some "true")
  /\ (forall e, In e (handleSelectorFailures cats autoMineEnv) ->
      exists line, e = LogWarning line \/ e = LogInfo line).
Proof.
  unfold handleSelectorFailures, failedSelectors. rewrite length_map.
  set (failed := List.length _).
  destruct (3 <? failed)%nat eqn:Hgt.
  - apply Nat.ltb_lt in Hgt.
    destruct autoMineEnv as [v|]; [destruct (String.eqb_spec v "true") as [->|Hv]|];
      (split; [intros n; split;
                [intros [H|H]; [injection H as <-; auto | cbn in H; intuition discriminate]
                |intros [-> _]; left; reflexivity]|]);
      (split; [cbn; intuition discriminate|]);
      (split; [cbn; intuition (try discriminate; try congruence)|]);
      intros e He; cbn in He; intuition (subst; eauto).
  - apply Nat.ltb_ge in Hgt.
    split; [intros n; split; [intros [] | intros [-> H]; lia]|].
    split; [intros []|]. split; [intros []|]. intros e [].
Qed.

(** C9 (as stated, refuted). In the run [runShortRow] the report counts four
    failed probes, one of them the insufficient-cells probe that carries a
    count of five; the handler does not count that one and produces
    nothing, with or without AUTO_MINE_ON_FAILURE. *)
Lemma four_failed_probes_without_suggestion :
  failed (reportCounters runShortRow) = 4%nat
  /\ List.length (failedSelectors runShortRow) = 3%nat
  /\ handleSelectorFailures runShortRow None = []
  /\ handleSelectorFailures runShortRow (Some "true") = [].
Proof. repeat split; reflexivity. Qed.

End MonitorProperties.

(** ** ConfigUpdater: what does hold of a repeated update *)

Section UpdaterIdempotence.
Import JS Updater.

Lemma keyName_inj k k' : keyName k = keyName k' -> k = k'.
Proof. destruct k, k'; cbn; intros H; first [reflexivity | discriminate H]. Qed.

Lemma stripQuotes_app a b : stripQuotes (a ++ b) = stripQuotes a ++ stripQuotes b.
Proof.
  induction a as [|x a IH]; cbn; [reflexivity|].
  destruct (Ascii.eqb x "034" || Ascii.eqb x "039"); cbn; rewrite IH; reflexivity.
Qed.

Lemma append_empty_r (s : string) : s ++ "" = s.
Proof. induction s as [|x s IH]; cbn; [reflexivity | rewrite IH; reflexivity]. Qed.

Lemma stripQuotes_quoted v : stripQuotes v = v -> stripQuotes (quoted v) = v.
Proof.
  intros Hv. unfold quoted. rewrite !stripQuotes_app, Hv. cbn. apply append_empty_r.
Qed.

Lemma getKey_In k v (mined : MinedSelectors) : getKey k mined = Some v -> In (k, v) mined.
Proof.
  induction mined as [|[k' v'] rest IH]; cbn [getKey]; [discriminate|].
  destruct (decide (k' = k)) as [->|Hne].
  - rewrite bool_decide_eq_true_2 by reflexivity. intros [= ->]. left. reflexivity.
  - rewrite bool_decide_eq_false_2 by assumption. intros H. right. apply IH, H.
Qed.

Lemma getProperty_setInitializer_eq key text props init :
  getProperty key props = Some init ->
  getProperty key (setInitializer key text props) = Some text.
Proof.
  induction props as [|[k i] rest IH]; cbn [getProperty setInitializer]; [discriminate|].
  destruct (String.eqb k key) eqn:Hk; cbn [getProperty]; rewrite Hk; auto.
Qed.

Lemma getProperty_setInitializer_ne key key' text props :
  key <> key' ->
  getProperty key' (setInitializer key text props) = getProperty key' props.
Proof.
  intros Hne. induction props as [|[k i] rest IH]; cbn [getProperty setInitializer];
    [reflexivity|].
  destruct (String.eqb k key) eqn:Hk; cbn [getProperty].
  - apply String.eqb_eq in Hk. subst k.
    destruct (String.eqb key key') eqn:E; [|reflexivity].
    apply String.eqb_eq in E. contradiction.
  - rewrite IH. reflexivity.
Qed.

Lemma getProperty_add key key' text props :
  getProperty key' (addPropertyAssignment key text props) =
    match getProperty key' props with
    | Some init => Some init
    | None => if String.eqb key key' then Some text else None
    end.
Proof.
  unfold addPropertyAssignment.
  induction props as [|[k i] rest IH]; cbn [getProperty app]; [reflexivity|].
  destruct (String.eqb k key'); [reflexivity | exact IH].
Qed.

Lemma updateProperty_settled props changes entry :
  settled props entry -> updateProperty (props, changes) entry = (props, changes).
Proof.
  destruct entry as [key value]. unfold settled, updateProperty. cbn [fst snd].
  intros [Hskip | (v & init & -> & Hget & Hstrip)].
  - rewrite Hskip. reflexivity.
  - destruct (bool_decide (key = rowClass) || negb (truthy (Some v))); [reflexivity|].
    rewrite Hget, Hstrip, String.eqb_refl. reflexivity.
Qed.

Lemma updateProperty_settles props changes key value :
  (forall v, value = Some v -> stripQuotes v = v) ->
  settled (fst (updateProperty (props, changes) (key, value))) (key, value).
Proof.
  intros Hq. unfold settled, updateProperty. cbn [fst snd].
  destruct (bool_decide (key = rowClass) || negb (truthy value)) eqn:Hskip; [left; reflexivity|].
  right. destruct value as [v|]; [|apply orb_false_elim in Hskip as [_ H]; discriminate H].
  specialize (Hq v eq_refl).
  destruct (getProperty (keyName key) props) as [init|] eqn:Hget.
  - destruct (String.eqb (stripQuotes init) v) eqn:Heq; cbn [negb fst].
    + exists v, init. apply String.eqb_eq in Heq. auto.
    + exists v, (quoted v). split; [reflexivity|]. split.
      * eapply getProperty_setInitializer_eq, Hget.
      * apply stripQuotes_quoted, Hq.
  - cbn [fst]. exists v, (quoted v). split; [reflexivity|]. split.
    + rewrite getProperty_add, Hget, String.eqb_refl. reflexivity.
    + apply stripQuotes_quoted, Hq.
Qed.

Lemma updateProperty_keeps_settled props changes entry other :
  fst other <> fst entry ->
  settled props other ->
  settled (fst (updateProperty (props, changes) entry)) other.
Proof.
  intros Hne [Hskip | (v & init & Hv & Hget & Hstrip)]; [left; exact Hskip|].
  right. exists v, init. split; [exact Hv|]. split; [|exact Hstrip].
  destruct entry as [key value]. unfold updateProperty. cbn [fst snd] in *.
  assert (Hname : keyName key <> keyName (fst other)).
  { intros H. apply Hne. symmetry. apply keyName_inj, H. }
  destruct (bool_decide (key = rowClass) || negb (truthy value)); [exact Hget|].
  destruct (getProperty (keyName key) props) as [init'|].
  - destruct (negb (String.eqb (stripQuotes init') _)); cbn [fst]; [|exact Hget].
    rewrite getProperty_setInitializer_ne by exact Hname. exact Hget.
  - cbn [fst]. rewrite getProperty_add, Hget. reflexivity.
Qed.

Lemma fold_updateProperty_keeps_settled entries props changes other :
  ~ In (fst other) (map fst entries) ->
  settled props other ->
  settled (fst (fold_left updateProperty entries (props, changes))) other.
Proof.
  revert props changes. induction entries as [|e rest IH]; intros props changes Hnin Hs;
    cbn [fold_left]; [exact Hs|].
  cbn [map In] in Hnin.
  pose proof (updateProperty_keeps_settled props changes e other
                ltac:(intros H; apply Hnin; left; symmetry; exact H) Hs) as Hs'.
  destruct (updateProperty (props, changes) e) as [props' changes'].
  apply IH; [intros H; apply Hnin; right; exact H | exact Hs'].
Qed.

Lemma fold_updateProperty_settles entries props changes :
  List.NoDup (map fst entries) ->
  (forall k v, In (k, Some v) entries -> stripQuotes v = v) ->
  forall entry, In entry entries ->
    settled (fst (fold_left updateProperty entries (props, changes))) entry.
Proof.
  revert props changes. induction entries as [|[k w] rest IH];
    intros props changes Hnd Hq entry Hin; [destruct Hin|].
  cbn [map fst] in Hnd. apply List.NoDup_cons_iff in Hnd as [Hk Hnd].
  cbn [fold_left].
  pose proof (updateProperty_settles props changes k w
                ltac:(intros v ->; apply (Hq k v); left; reflexivity)) as Hs.
  destruct (updateProperty (props, changes) (k, w)) as [props' changes'].
  cbn [fst] in Hs. destruct Hin as [<-|Hin].
  - apply fold_updateProperty_keeps_settled; [exact Hk | exact Hs].
  - apply IH; [exact Hnd | intros k' v' H; apply (Hq k' v'); right; exact H | exact Hin].
Qed.

Lemma fold_updateProperty_all_settled entries props changes :
  (forall entry, In entry entries -> settled props entry) ->
  fold_left updateProperty entries (props, changes) = (props, changes).
Proof.
  induction entries as [|e rest IH]; intros Hall; cbn [fold_left]; [reflexivity|].
  rewrite updateProperty_settled by (apply Hall; left; reflexivity).
  apply IH. intros entry Hin. apply Hall. right. exact Hin.
Qed.

Lemma updateRowSelectors_twice mined arr :
  (forall c, valueOf rowClass mined = Some c -> stripQuotes c = c) ->
  updateRowSelectors mined (fst (updateRowSelectors mined arr))
  = (fst (updateRowSelectors mined arr), []).
Proof.
  intros Hq. unfold updateRowSelectors at 2 3.
  destruct (truthy (valueOf rowClass mined)) eqn:Ht;
    [|cbn [fst]; unfold updateRowSelectors; rewrite Ht; reflexivity].
  destruct (valueOf rowClass mined) as [c|] eqn:Hc; [|discriminate Ht].
  specialize (Hq c eq_refl).
  destruct arr as [elements|];
    [|cbn [fst]; unfold updateRowSelectors; rewrite Hc, Ht; reflexivity].
  destruct elements as [|first [|slot later]];
    try (cbn [fst List.length Nat.ltb Nat.leb]; unfold updateRowSelectors;
         rewrite Hc, Ht; reflexivity).
  cbn [List.length Nat.ltb Nat.leb]. change ((first :: slot :: later) !! 1%nat) with (Some slot).
  cbv beta iota zeta.
  destruct (String.eqb (stripQuotes slot) c) eqn:Heq; cbn [negb fst].
  - unfold updateRowSelectors. rewrite Hc, Ht. cbn [List.length Nat.ltb Nat.leb].
    change ((first :: slot :: later) !! 1%nat) with (Some slot). cbv beta iota zeta.
    rewrite Heq. reflexivity.
  - assert (Hnew : forall rest,
               updateRowSelectors mined (Some (first :: quoted c :: rest))
               = (Some (first :: quoted c :: rest), [])).
    { intros rest. unfold updateRowSelectors. rewrite Hc, Ht.
      cbn [List.length Nat.ltb Nat.leb].
      change ((first :: quoted c :: rest) !! 1%nat) with (Some (quoted c)).
      cbv beta iota zeta. rewrite (stripQuotes_quoted c Hq), String.eqb_refl. reflexivity. }
    destruct later as [|third later]; apply Hnew.
Qed.

(** Without quote characters in the mined values, a second pass over the
    table that a first pass produced changes nothing. *)
Lemma applyMined_twice mined tbl :
  NoDup (map fst mined) ->
  (forall k v, In (k, Some v) mined -> stripQuotes v = v) ->
  applyMined mined (fst (applyMined mined tbl)) = (fst (applyMined mined tbl), []).
Proof.
  intros Hnd%NoDup_ListNoDup Hq.
  pose proof (updateRowSelectors_twice mined (rowSelectorsArray tbl)) as Hrow.
  pose proof (fun rc => fold_updateProperty_settles mined (properties tbl) rc Hnd Hq) as Hset.
  unfold applyMined at 2 3.
  destruct (updateRowSelectors mined (rowSelectorsArray tbl)) as [arr rowChanges].
  specialize (Hset rowChanges).
  destruct (fold_left updateProperty mined (properties tbl, rowChanges)) as [props changes].
  cbn [fst] in *. unfold applyMined. cbn [rowSelectorsArray properties].
  rewrite Hrow.
  - rewrite (fold_updateProperty_all_settled mined props [] Hset). reflexivity.
  - intros c Hc. unfold valueOf in Hc.
    destruct (getKey rowClass mined) as [v|] eqn:Hget; [|discriminate].
    subst v. apply (Hq rowClass c). apply getKey_In, Hget.
Qed.

(** Idempotence as far as it holds: when no mined value holds a quote
    character, a second updateSelectors with the same object, on the disk
    that a first one left from a selectors.ts whose [table] is a top-level
    property, finds nothing to change, returns, and leaves selectors.ts as
    the first one wrote it (the backup is refreshed).  This is so whether
    or not the self-test of the first call threw. *)
Lemma updateSelectors_twice_without_quotes
    selfTest selfTest' mined now now' disk file tbl disk1 completion1 :
  NoDup (map fst mined) ->
  (forall k v, In (k, Some v) mined -> stripQuotes v = v) ->
  selectorsFile disk = Some file ->
  tableMember file = TableProperty tbl ->
  updateSelectors selfTest mined now disk = (disk1, completion1) ->
  updateSelectors selfTest' mined now' disk1
  = (mkDisk (selectorsFile disk1) (selectorsFile disk1), Ok []).
Proof.
  intros Hnd Hq Hfile Hmember. unfold updateSelectors at 1. rewrite Hfile, Hmember.
  pose proof (applyMined_twice mined tbl Hnd Hq) as Htwice.
  destruct (applyMined mined tbl) as [tbl' changes] eqn:Hfirst.
  cbn [fst] in Htwice.
  destruct (0 <? List.length changes)%nat eqn:Hch; intros [= <- <-];
    unfold updateSelectors; cbn [selectorsFile tableMember].
  - rewrite Htwice. reflexivity.
  - rewrite Hmember, Hfirst, Hch. cbn [selectorsFile]. f_equal. f_equal.
    destruct changes; [reflexivity | discriminate Hch].
Qed.

End UpdaterIdempotence.

(** * Further properties of the modelled code *)

(** Case analysis on every scrutinee in the goal. *)
Ltac case_matches :=
  repeat match goal with
         | |- context [match ?x with _ => _ end] => destruct x
         end.

(** ** LocatorGenerator *)

Section GeneratorFurther.
Import JS Generator Fixtures.

Lemma truthy_append_nonempty a c b : truthy (Some (a ++ String c b)) = true.
Proof. destruct a; reflexivity. Qed.

Lemma classSelector_truthy el s : classSelector el = Some s -> truthy (Some s) = true.
Proof.
  unfold classSelector. case_matches; intros H; try discriminate H; injection H as <-;
    destruct (tagName el); reflexivity.
Qed.

Lemma roleSelector_truthy el s : roleSelector el = Some s -> truthy (Some s) = true.
Proof.
  unfold roleSelector. case_matches; intros H; try discriminate H; injection H as <-;
    destruct (tagName el); reflexivity.
Qed.

Lemma generateSelector_truthy el s :
  generateSelector el = Some s -> truthy (Some s) = true.
Proof.
  unfold generateSelector.
  destruct (truthy (dataTestid el)).
  - intros [= <-]. destruct (tagName el); reflexivity.
  - destruct (truthy (Some (elemId el)) && negb (includesChar (elemId el) ":")).
    + intros [= <-]. reflexivity.
    + destruct (classSelector el) as [s'|] eqn:Hc.
      * intros [= <-]. apply (classSelector_truthy el s' Hc).
      * apply roleSelector_truthy.
Qed.

(** findBestSelector never returns the empty string: a caller that tests
    the result for truthiness only ever filters out the null result. *)
Theorem findBestSelector_never_empty h s :
  findBestSelector h = Some s -> s <> "" /\ truthy (findBestSelector h) = true.
Proof.
  unfold findBestSelector. generalize (element h :: ancestors h). generalize 3%nat.
  intros budget. induction budget as [|n IH]; intros [|e els]; cbn [walk];
    try discriminate.
  destruct (generateSelector e) as [s'|] eqn:Hgen.
  - intros [= ->]. pose proof (generateSelector_truthy e s Hgen) as Ht.
    split; [intros ->; discriminate Ht | exact Ht].
  - apply IH.
Qed.

Lemma findBestSelector_never_empty_witness :
  selNameTestid <> "" /\ truthy (findBestSelector nearSpan) = true.
Proof. exact (findBestSelector_never_empty nearSpan selNameTestid eq_refl). Defined.

Lemma sortByLengthDesc_head l :
  match sortByLengthDesc l with
  | [] => l = []
  | h :: _ => In h l /\ forall x, In x l -> (String.length x <= String.length h)%nat
  end.
Proof.
  induction l as [|x l IH]; [reflexivity|].
  cbn [sortByLengthDesc fold_right]. fold (sortByLengthDesc l).
  destruct (sortByLengthDesc l) as [|h t]; cbn [insertByLength].
  - subst l. split; [left; reflexivity|]. intros y [<-|[]]. lia.
  - destruct IH as [Hin Hmax].
    destruct (String.length x <? String.length h)%nat eqn:Hlt.
    + apply Nat.ltb_lt in Hlt. split; [right; exact Hin|].
      intros y [<-|Hy]; [lia | apply Hmax, Hy].
    + apply Nat.ltb_ge in Hlt. split; [left; reflexivity|].
      intros y [<-|Hy]; [lia | specialize (Hmax y Hy); lia].
Qed.

(** Priority 3 builds its selector on a longest class of the element among
    those that start with zp_ and have more than six characters.  The
    class stands alone when no other child of the parent carries it;
    otherwise a second zp_ class of the element, different from it, is
    appended. *)
Theorem classSelector_uses_a_longest_class el s :
  classSelector el = Some s ->
  exists primaryClass,
    In primaryClass (classList el)
    /\ isZpClass primaryClass = true
    /\ (6 < String.length primaryClass)%nat
    /\ (forall c, In c (classList el) -> isZpClass c = true ->
                  (6 < String.length c)%nat ->
                  (String.length c <= String.length primaryClass)%nat)
    /\ ((s = tagName el ++ "." ++ primaryClass
         /\ forall sib, In sib (siblingClassLists el) -> ~ In primaryClass sib)
        \/ exists secondaryClass,
             s = tagName el ++ "." ++ primaryClass ++ "." ++ secondaryClass
             /\ In secondaryClass (classList el)
             /\ isZpClass secondaryClass = true
             /\ secondaryClass <> primaryClass
             /\ exists sib, In sib (siblingClassLists el) /\ In primaryClass sib).
Proof.
  unfold classSelector.
  set (qualifies := fun c => isZpClass c && (6 <? String.length c)%nat).
  pose proof (sortByLengthDesc_head (List.filter qualifies (classList el))) as Hhead.
  destruct (sortByLengthDesc (List.filter qualifies (classList el))) as [|p rest];
    [discriminate|].
  destruct Hhead as [Hin Hmax]. apply filter_In in Hin as [Hin Hq].
  unfold qualifies in Hq. apply andb_prop in Hq as [Hzp Hlen]. apply Nat.ltb_lt in Hlen.
  intros Hs. exists p. split; [exact Hin|]. split; [exact Hzp|]. split; [exact Hlen|].
  split.
  { intros c Hc Hcz Hcl. apply Hmax. apply filter_In. split; [exact Hc|].
    unfold qualifies. rewrite Hcz. apply Nat.ltb_lt in Hcl. rewrite Hcl. reflexivity. }
  set (sharing := List.filter (fun sib => existsb (String.eqb p) sib) (siblingClassLists el))
    in Hs.
  destruct (List.length sharing =? 0)%nat eqn:Hcount.
  - left. injection Hs as <-. split; [reflexivity|].
    intros sib Hsib Hp. apply Nat.eqb_eq in Hcount.
    assert (Hshare : In sib sharing).
    { apply filter_In. split; [exact Hsib|]. apply existsb_exists. exists p.
      split; [exact Hp | apply String.eqb_refl]. }
    destruct sharing; [destruct Hshare | discriminate Hcount].
  - right.
    destruct (List.find (fun c => isZpClass c && negb (String.eqb c p)) (classList el))
      as [secondary|] eqn:Hfind; [|discriminate].
    injection Hs as <-. apply find_some in Hfind as [Hsin Hsq].
    apply andb_prop in Hsq as [Hsz Hsne]. exists secondary.
    split; [reflexivity|]. split; [exact Hsin|]. split; [exact Hsz|].
    split; [intros ->; rewrite String.eqb_refl in Hsne; discriminate Hsne|].
    destruct sharing as [|sib others] eqn:Hsharing; [discriminate Hcount|].
    assert (Hshare : In sib (List.filter (fun sib => existsb (String.eqb p) sib)
                                         (siblingClassLists el))).
    { fold sharing. rewrite Hsharing. left. reflexivity. }
    apply filter_In in Hshare as [Hsib Hex]. apply existsb_exists in Hex as (q & Hq & Heq).
    apply String.eqb_eq in Heq. subst q. exists sib. split; assumption.
Qed.

Lemma classSelector_uses_a_longest_class_witness :
  exists primaryClass,
    In primaryClass (classList (element emailSpan))
    /\ isZpClass primaryClass = true
    /\ (6 < String.length primaryClass)%nat
    /\ (forall c, In c (classList (element emailSpan)) -> isZpClass c = true ->
                  (6 < String.length c)%nat ->
                  (String.length c <= String.length primaryClass)%nat)
    /\ (("span.zp_CaeaN" = tagName (element emailSpan) ++ "." ++ primaryClass
         /\ forall sib, In sib (siblingClassLists (element emailSpan)) ->
                        ~ In primaryClass sib)
        \/ exists secondaryClass,
             "span.zp_CaeaN"
               = tagName (element emailSpan) ++ "." ++ primaryClass ++ "." ++ secondaryClass
             /\ In secondaryClass (classList (element emailSpan))
             /\ isZpClass secondaryClass = true
             /\ secondaryClass <> primaryClass
             /\ exists sib, In sib (siblingClassLists (element emailSpan))
                            /\ In primaryClass sib).
Proof.
  exact (classSelector_uses_a_longest_class (element emailSpan) "span.zp_CaeaN" eq_refl).
Defined.

End GeneratorFurther.

(** ** FieldMiner and the scraper's row discovery *)

Section MinerFurther.
Import JS Generator Miner Scraper Validator Updater Pipeline Invariants Fixtures.

(** The default strategy returns only a selector that it has seen resolve:
    a result of mineCellSelector has at least one match on the page, and
    it is the selector generated for a visible interactive element of the
    cell, which was given as an element handle; given a Locator, the
    function returns null. *)
Theorem mineCellSelector_result_resolves page cell s :
  mineCellSelector page cell = Some s ->
  (0 < List.length (locator page s))%nat
  /\ cell = ElementHandle (nodeOf cell)
  /\ exists el, In el (queryAll (nodeOf cell) selInteractive)
                /\ isVisible el = true /\ findBestSelector el = Some s.
Proof.
  unfold mineCellSelector. destruct cell as [node|node]; cbn [dollars nodeOf]; [discriminate|].
  intros H. cut ((0 < List.length (locator page s))%nat
                 /\ exists el, In el (queryAll node selInteractive)
                               /\ isVisible el = true /\ findBestSelector el = Some s).
  { intros [H1 H2]. split; [exact H1|]. split; [reflexivity | exact H2]. }
  revert H.
  induction (queryAll node selInteractive) as [|el rest IH]; cbn [firstWorkingSelector];
    [discriminate|].
  assert (Hrest : firstWorkingSelector page rest = Some s ->
                  (0 < List.length (locator page s))%nat
                  /\ exists el', In el' (el :: rest)
                                 /\ isVisible el' = true /\ findBestSelector el' = Some s).
  { intros H. destruct (IH H) as (Hc & el' & Hin & Hv & Hf).
    split; [exact Hc|]. exists el'. split; [right; exact Hin | split; assumption]. }
  destruct (isVisible el) eqn:Hvis; cbn [negb]; [|exact Hrest].
  destruct (findBestSelector el) as [sel|] eqn:Hsel; [|exact Hrest].
  destruct (0 <? List.length (locator page sel))%nat eqn:Hcount; [|exact Hrest].
  intros [= ->]. split; [apply Nat.ltb_lt, Hcount|].
  exists el. split; [left; reflexivity | split; assumption].
Qed.

Lemma mineCellSelector_result_resolves_witness :
  (0 < List.length (locator pageFull "span.zp_FEm_X"))%nat
  /\ ElementHandle jobCell = ElementHandle (nodeOf (ElementHandle jobCell))
  /\ exists el, In el (queryAll (nodeOf (ElementHandle jobCell)) selInteractive)
                /\ isVisible el = true /\ findBestSelector el = Some "span.zp_FEm_X".
Proof.
  exact (mineCellSelector_result_resolves pageFull (ElementHandle jobCell) "span.zp_FEm_X"
           eq_refl).
Defined.

(** Row discovery of the miner is first-match-wins on the match count
    alone: the selector it settles on is the first configured one with a
    match, the row is the first match of that selector, and it finds no
    row exactly when no configured selector has a match. *)
Theorem findRowLocator_first_with_a_match page candidates :
  (forall selector row,
      findRowLocator page candidates = Some (selector, row) ->
      exists before after others,
        candidates = (before ++ selector :: after)%list
        /\ (forall s, In s before -> locator page s = [])
        /\ locator page selector = row :: others)
  /\ (findRowLocator page candidates = None <->
      forall s, In s candidates -> locator page s = []).
Proof.
  split; [intros selector row; apply findRowLocator_first_match|].
  induction candidates as [|s rest IH]; cbn [findRowLocator].
  - split; [intros _ s [] | reflexivity].
  - destruct (locator page s) as [|first others] eqn:Hloc.
    + rewrite IH. split.
      * intros H s' [<-|Hin]; [exact Hloc | apply H, Hin].
      * intros H s' Hin. apply H. right. exact Hin.
    + split; [discriminate|]. intros H. specialize (H s (or_introl eq_refl)).
      rewrite Hloc in H. discriminate H.
Qed.

(** Whether the first match of a candidate has at least ten cells. *)
Lemma findRows_none page cellSel candidatesList rows :
  findRows page cellSel candidatesList = (None, rows) ->
  rows = []
  /\ forall s first others, In s candidatesList -> locator page s = first :: others ->
                            (List.length (queryAll first cellSel) < 10)%nat.
Proof.
  induction candidatesList as [|s rest IH]; cbn [findRows].
  - intros [= <-]. split; [reflexivity | intros s first others []].
  - destruct (locator page s) as [|first others] eqn:Hloc.
    + intros H. destruct (IH H) as [Hrows Hall]. split; [exact Hrows|].
      intros s' f o [<-|Hin] Hl; [rewrite Hloc in Hl; discriminate Hl | eapply Hall; eauto].
    + destruct (10 <=? List.length (queryAll first cellSel))%nat eqn:Hlen; [discriminate|].
      intros H. destruct (IH H) as [Hrows Hall]. split; [exact Hrows|].
      intros s' f o [<-|Hin] Hl.
      * rewrite Hloc in Hl. injection Hl as <- <-. apply Nat.leb_gt, Hlen.
      * eapply Hall; eauto.
Qed.

(** Row discovery of the scraper is first-match-wins on the cell count: the
    candidate it accepts is the first whose first match has at least ten
    cells, every earlier candidate has no match or a first match with
    fewer cells, and the rows are all the matches of the accepted
    candidate; when no candidate qualifies there are no rows. *)
Theorem findRows_first_with_ten_cells page cellSel candidatesList :
  (forall selector rows,
      findRows page cellSel candidatesList = (Some selector, rows) ->
      exists before after first others,
        candidatesList = (before ++ selector :: after)%list
        /\ rows = locator page selector
        /\ rows = first :: others
        /\ (10 <= List.length (queryAll first cellSel))%nat
        /\ forall s f o, In s before -> locator page s = f :: o ->
                         (List.length (queryAll f cellSel) < 10)%nat)
  /\ (forall rows,
      findRows page cellSel candidatesList = (None, rows) ->
      rows = []
      /\ forall s f o, In s candidatesList -> locator page s = f :: o ->
                       (List.length (queryAll f cellSel) < 10)%nat).
Proof.
  split; [|intros rows; apply findRows_none].
  induction candidatesList as [|s rest IH]; cbn [findRows]; [discriminate|].
  intros selector rows.
  destruct (locator page s) as [|first others] eqn:Hloc.
  - intros H. destruct (IH selector rows H) as (b & a & f & o & -> & Hr & Hr' & Hlen & Hb).
    exists (s :: b), a, f, o. repeat split; try assumption.
    intros s' f' o' [<-|Hin] Hl; [rewrite Hloc in Hl; discriminate Hl | eapply Hb; eauto].
  - destruct (10 <=? List.length (queryAll first cellSel))%nat eqn:Hlen.
    + intros [= <- <-]. exists [], rest, first, others.
      repeat split; [symmetry; exact Hloc | apply Nat.leb_le, Hlen | intros s' f o []].
    + intros H. destruct (IH selector rows H) as (b & a & f & o & -> & Hr & Hr' & Hl & Hb).
      exists (s :: b), a, f, o. repeat split; try assumption.
      intros s' f' o' [<-|Hin] Hl'.
      * rewrite Hloc in Hl'. injection Hl' as <- <-. apply Nat.leb_gt, Hlen.
      * eapply Hb; eauto.
Qed.

(** *** The mined object *)

Lemma mineRowClass_shape row :
  mineRowClass row [] = []
  \/ exists c, In c (classList (element row)) /\ isRowClass c = true
                /\ mineRowClass row [] = [(rowClass, Some ("div." ++ c))].
Proof.
  unfold mineRowClass, rowClassOf.
  destruct (List.find isRowClass (classList (element row))) as [c|] eqn:Hfind;
    [|left; reflexivity].
  apply find_some in Hfind as [Hin Hc]. rewrite (isRowClass_truthy c Hc).
  right. exists c. split; [exact Hin|]. split; [exact Hc | reflexivity].
Qed.

Lemma mineSelectors_shape page T mined :
  mineSelectors page T = Ok mined ->
  mined = []
  \/ exists selector row c,
       findRowLocator page (rowSelectors T) = Some (selector, row)
       /\ In c (classList (element row)) /\ isRowClass c = true
       /\ mined = [(rowClass, Some ("div." ++ c))].
Proof.
  intros Hmined.
  destruct (findRowLocator page (rowSelectors T)) as [[selector row]|] eqn:Hrow.
  - rewrite (mineSelectors_with_row _ _ _ _ _ Hmined Hrow).
    destruct (mineRowClass_shape row) as [->|(c & Hin & Hc & ->)]; [left; reflexivity|].
    right. exists selector, row, c. auto.
  - unfold mineSelectors in Hmined. rewrite Hrow in Hmined.
    destruct (negb (waitForSelector page selTableLoaded)); [discriminate|].
    injection Hmined as <-. left. reflexivity.
Qed.

(** mineSelectors never records a null or empty locator, except under
    phoneVisible: every other entry of the object it returns holds a
    non-empty string, and no key occurs twice. *)
Theorem mineSelectors_records_non_empty_locators page T mined :
  mineSelectors page T = Ok mined ->
  NoDup (map fst mined)
  /\ (List.length mined <= 12)%nat
  /\ forall k v, In (k, v) mined -> k <> phoneVisible ->
                 exists s, v = Some s /\ s <> "".
Proof.
  intros Hm.
  destruct (mineSelectors_shape page T mined Hm) as [->|(selector & row & c & _ & _ & _ & ->)].
  - split; [constructor|]. split; [cbn; lia | intros k v []].
  - split; [apply NoDup_ListNoDup; repeat constructor; intros []|].
    split; [cbn; lia|]. intros k v [[= <- <-]|[]] _.
    eexists. split; [reflexivity | discriminate].
Qed.

Lemma mineSelectors_records_non_empty_locators_witness :
  NoDup (map fst minedRowOnly)
  /\ (List.length minedRowOnly <= 12)%nat
  /\ forall k v, In (k, v) minedRowOnly -> k <> phoneVisible ->
                 exists s, v = Some s /\ s <> "".
Proof.
  exact (mineSelectors_records_non_empty_locators pageFull currentT minedRowOnly eq_refl).
Defined.

(** The cells that mineSelectors walks over are Locators, on which the [$]
    and [$$] of the switch throw; every iteration ends in its catch.  So the
    object returned is empty or holds the row class alone, taken from a
    class of the row that row discovery settled on: no field of a cell is
    ever recorded, however many cells the row has and whatever they hold. *)
Theorem mineSelectors_records_the_row_class_only page T mined :
  mineSelectors page T = Ok mined ->
  (List.length mined <= 1)%nat
  /\ (mined = []
      \/ exists selector row c,
           findRowLocator page (rowSelectors T) = Some (selector, row)
           /\ In c (classList (element row)) /\ isRowClass c = true
           /\ mined = [(rowClass, Some ("div." ++ c))]).
Proof.
  intros Hm. pose proof (mineSelectors_shape page T mined Hm) as Hshape.
  split; [|exact Hshape].
  destruct Hshape as [->|(selector & row & c & _ & _ & _ & ->)]; cbn; lia.
Qed.

Lemma mineSelectors_records_the_row_class_only_witness :
  (List.length minedRowOnly <= 1)%nat
  /\ (minedRowOnly = []
      \/ exists selector row c,
           findRowLocator pageFull (rowSelectors currentT) = Some (selector, row)
           /\ In c (classList (element row)) /\ isRowClass c = true
           /\ minedRowOnly = [(rowClass, Some ("div." ++ c))]).
Proof.
  exact (mineSelectors_records_the_row_class_only pageFull currentT minedRowOnly eq_refl).
Defined.

End MinerFurther.

(** ** The handler, the validator's edge cases and the updater *)

Section PipelineFurther.
Import JS Generator Miner Validator Updater Pipeline Invariants Fixtures MoreFixtures.

(** Once the page is reached and the table has loaded, a page on which no
    configured row selector has a match, or on which the row found is
    visible and has fewer than ten cells, gives a mined object with nothing
    but, at most, the row class; the handler then stops after the miner,
    returns, and leaves the disk as it was. *)
Theorem missing_or_short_row_stops_the_handler selfTest page T now disk :
  waitForSelector page selTableLoaded = true ->
  (findRowLocator page (rowSelectors T) = None
   \/ exists selector row,
        findRowLocator page (rowSelectors T) = Some (selector, row)
        /\ isVisible row = true
        /\ (List.length (queryAll row selRoleCell) < 10)%nat) ->
  exists mined,
    mineSelectors page T = Ok mined
    /\ (List.length mined <= 1)%nat
    /\ (forall k v, In (k, v) mined -> k = rowClass)
    /\ requestHandler Arrived selfTest page T now disk = mkRun [CallMiner] disk (Ok tt).
Proof.
  intros Hwait Hrow.
  assert (Hm : exists mined, mineSelectors page T = Ok mined
                             /\ (List.length mined <= 1)%nat
                             /\ forall k v, In (k, v) mined -> k = rowClass).
  { unfold mineSelectors. rewrite Hwait. cbn [negb].
    destruct Hrow as [Hnone | (selector & row & Hsome & Hvis & Hlen)].
    - rewrite Hnone. exists []. split; [reflexivity|]. split; [cbn; lia | intros k v []].
    - rewrite Hsome, Hvis. cbn [negb]. rewrite length_map.
      apply Nat.ltb_lt in Hlen. rewrite Hlen.
      eexists. split; [reflexivity|]. unfold mineRowClass.
      destruct (truthy (rowClassOf (element row))); [|split; [cbn; lia | intros k v []]].
      destruct (rowClassOf (element row)); [|split; [cbn; lia | intros k v []]].
      split; [cbn; lia|]. intros k v [[= <- <-]|[]]. reflexivity. }
  destruct Hm as (mined & Hm & Hlen & Hkeys). exists mined.
  split; [exact Hm|]. split; [exact Hlen|]. split; [exact Hkeys|].
  unfold requestHandler, afterMining. rewrite Hm.
  replace (3 <? List.length mined)%nat with false by (symmetry; apply Nat.ltb_ge; lia).
  reflexivity.
Qed.

Lemma missing_or_short_row_stops_the_handler_witness :
  exists mined,
    mineSelectors pageSummaryFirst currentT = Ok mined
    /\ (List.length mined <= 1)%nat
    /\ (forall k v, In (k, v) mined -> k = rowClass)
    /\ requestHandler Arrived (Ok tt) pageSummaryFirst currentT "now" disk0
       = mkRun [CallMiner] disk0 (Ok tt).
Proof.
  apply (missing_or_short_row_stops_the_handler (Ok tt) pageSummaryFirst currentT "now" disk0).
  - reflexivity.
  - right. exists rowSelector0, rowSummary. repeat split; cbn; lia.
Defined.

(** When the handler throws.  It throws when a step before mining throws
    (the login, the navigation, the wait for the main application), when
    the table never loads, and when the row that row discovery settles on
    is not visible; in every other case it returns, because the object
    mined from Locators never has the more than three entries that lead to
    the updater. *)
Theorem requestHandler_throws_exactly_when arrival selfTest page T now disk :
  completion (requestHandler arrival selfTest page T now disk) = Throws <->
  arrival <> Arrived
  \/ waitForSelector page selTableLoaded = false
  \/ (exists selector row,
        findRowLocator page (rowSelectors T) = Some (selector, row)
        /\ isVisible row = false).
Proof.
  assert (Hmine : mineSelectors page T = Throws <->
                  waitForSelector page selTableLoaded = false
                  \/ exists selector row,
                       findRowLocator page (rowSelectors T) = Some (selector, row)
                       /\ isVisible row = false).
  { unfold mineSelectors.
    destruct (waitForSelector page selTableLoaded); cbn [negb]; [|intuition].
    destruct (findRowLocator page (rowSelectors T)) as [[selector row]|].
    - destruct (isVisible row) eqn:Hvis; cbn [negb].
      + destruct (List.length (map Locator (queryAll row selRoleCell)) <? 10)%nat;
          (split; [discriminate|]);
          intros [H|(s & r & [= <- <-] & H)]; congruence.
      + split; [|reflexivity]. intros _. right. exists selector, row. auto.
    - split; [discriminate|]. intros [H|(s & r & H & _)]; discriminate. }
  unfold requestHandler.
  destruct arrival; cbn [completion];
    try (split; [intros _; left; discriminate | reflexivity]).
  destruct (mineSelectors page T) as [mined|] eqn:Hm.
  - destruct (mineSelectors_shape page T mined Hm) as [->|(s & r & c & _ & _ & _ & ->)];
      cbn [afterMining List.length Nat.ltb Nat.leb completion];
      (split; [discriminate|]);
      (intros [H|H]; [contradiction H; reflexivity|]);
      apply Hmine in H; discriminate H.
  - cbn [completion]. split; [|reflexivity]. intros _. right. apply Hmine. reflexivity.
Qed.

(** The validator on fewer than two entries, where it divides by zero or
    by minus one: the empty object is rejected, and a single entry is
    accepted exactly when it is itself found valid (1/0 is Infinity, 0/0
    is NaN). *)
Theorem validateSelectors_below_two_entries page :
  validateSelectors page [] = false
  /\ forall entry,
       validateSelectors page [entry] = true <-> validCount page [entry] = 1%nat.
Proof.
  split; [vm_compute; reflexivity|].
  intros [k v]. unfold validateSelectors, validityRate, totalCount.
  cbn [validCount List.length].
  destruct (negb (truthy v) || bool_decide (k = rowClass));
    [vm_compute; split; discriminate|].
  destruct v as [s|]; [|vm_compute; split; discriminate].
  destruct (resolves page s); vm_compute; split; first [reflexivity | discriminate].
Qed.

End PipelineFurther.

(** ** ConfigUpdater: what an update keeps and what it stores *)

Section UpdaterFurther.
Import JS Miner Validator Updater Pipeline Invariants Fixtures MoreFixtures.

Lemma setInitializer_names key text props :
  map fst (setInitializer key text props) = map fst props.
Proof.
  induction props as [|[k i] rest IH]; cbn [setInitializer map fst]; [reflexivity|].
  destruct (String.eqb k key); cbn [map fst]; [reflexivity | rewrite IH; reflexivity].
Qed.

Lemma updateProperty_other_lookup props changes key value name :
  keyName key <> name ->
  getProperty name (fst (updateProperty (props, changes) (key, value)))
  = getProperty name props.
Proof.
  intros Hne. unfold updateProperty.
  destruct (bool_decide (key = rowClass) || negb (truthy value)); [reflexivity|].
  destruct (getProperty (keyName key) props) as [init|].
  - destruct (negb (String.eqb (stripQuotes init) _)); cbn [fst]; [|reflexivity].
    apply getProperty_setInitializer_ne, Hne.
  - cbn [fst]. rewrite getProperty_add.
    destruct (getProperty name props); [reflexivity|].
    destruct (String.eqb (keyName key) name) eqn:E; [|reflexivity].
    apply String.eqb_eq in E. contradiction.
Qed.

Lemma fold_updateProperty_other_lookup entries props changes name :
  (forall k, In k (map fst entries) -> keyName k <> name) ->
  getProperty name (fst (fold_left updateProperty entries (props, changes)))
  = getProperty name props.
Proof.
  revert props changes. induction entries as [|[k v] rest IH]; intros props changes Hk;
    cbn [fold_left]; [reflexivity|].
  pose proof (updateProperty_other_lookup props changes k v name
                (Hk k (or_introl eq_refl))) as Hstep.
  destruct (updateProperty (props, changes) (k, v)) as [props' changes'].
  cbn [fst] in Hstep. rewrite IH; [exact Hstep|].
  intros k' Hin. apply Hk. right. exact Hin.
Qed.

Lemma updateProperty_names props changes entry :
  exists added,
    map fst (fst (updateProperty (props, changes) entry)) = (map fst props ++ added)%list.
Proof.
  destruct entry as [key value]. unfold updateProperty.
  destruct (bool_decide (key = rowClass) || negb (truthy value));
    [exists []; cbn [fst]; rewrite app_nil_r; reflexivity|].
  destruct (getProperty (keyName key) props) as [init|].
  - destruct (negb (String.eqb (stripQuotes init) _)); cbn [fst]; exists [];
      rewrite app_nil_r; [apply setInitializer_names | reflexivity].
  - cbn [fst]. unfold addPropertyAssignment. rewrite map_app. eexists. reflexivity.
Qed.

Lemma fold_updateProperty_names entries props changes :
  exists added,
    map fst (fst (fold_left updateProperty entries (props, changes)))
    = (map fst props ++ added)%list.
Proof.
  revert props changes. induction entries as [|e rest IH]; intros props changes;
    cbn [fold_left]; [exists []; rewrite app_nil_r; reflexivity|].
  destruct (updateProperty_names props changes e) as [added1 H1].
  destruct (updateProperty (props, changes) e) as [props' changes']. cbn [fst] in H1.
  destruct (IH props' changes') as [added2 H2].
  exists (added1 ++ added2)%list. rewrite H2, H1, app_assoc. reflexivity.
Qed.

Lemma updateProperty_stores props changes key v :
  key <> rowClass -> v <> "" ->
  exists init,
    getProperty (keyName key) (fst (updateProperty (props, changes) (key, Some v)))
    = Some init
    /\ holdsValue init v.
Proof.
  intros Hk Hv. unfold updateProperty.
  rewrite bool_decide_eq_false_2 by exact Hk.
  assert (Ht : truthy (Some v) = true).
  { cbn. destruct (String.eqb v "") eqn:E; [apply String.eqb_eq in E; contradiction|].
    reflexivity. }
  rewrite Ht. cbn [negb orb].
  destruct (getProperty (keyName key) props) as [init|] eqn:Hget.
  - destruct (String.eqb (stripQuotes init) v) eqn:Heq; cbn [negb fst].
    + exists init. split; [exact Hget|]. right. apply String.eqb_eq, Heq.
    + exists (quoted v). split; [|left; reflexivity].
      eapply getProperty_setInitializer_eq, Hget.
  - cbn [fst]. exists (quoted v). split; [|left; reflexivity].
    rewrite getProperty_add, Hget, String.eqb_refl. reflexivity.
Qed.

Lemma fold_updateProperty_stores entries props changes k v :
  List.NoDup (map fst entries) ->
  In (k, Some v) entries -> k <> rowClass -> v <> "" ->
  exists init,
    getProperty (keyName k) (fst (fold_left updateProperty entries (props, changes)))
    = Some init
    /\ holdsValue init v.
Proof.
  revert props changes. induction entries as [|[k0 v0] rest IH];
    intros props changes Hnd Hin Hk Hv; [destruct Hin|].
  cbn [map fst] in Hnd. apply List.NoDup_cons_iff in Hnd as [Hk0 Hnd].
  cbn [fold_left]. destruct Hin as [[= -> ->]|Hin].
  - destruct (updateProperty_stores props changes k v Hk Hv) as (init & Hget & Hholds).
    destruct (updateProperty (props, changes) (k, Some v)) as [props' changes'].
    cbn [fst] in Hget. exists init. split; [|exact Hholds].
    rewrite fold_updateProperty_other_lookup; [exact Hget|].
    intros k' Hin' Heq. apply keyName_inj in Heq. subst k'. contradiction.
  - destruct (updateProperty (props, changes) (k0, v0)) as [props' changes'].
    apply IH; assumption.
Qed.

(** An update never removes or reorders what is in the table.  Whatever
    the completion of the call, the backup holds the file as it was before.
    When [table] is a top-level property of SELECTORS, the property names
    present before are still there, in order, with new ones only added
    behind them; a property that is not named by a key of the mined object
    (the cell selector, for one) keeps its text; the first row selector and
    every row selector from the third on stay in place, and the list of row
    selectors never shrinks.  With any other [table] member the file is
    left as it was. *)
Theorem updateSelectors_keeps_the_rest selfTest mined now disk file :
  selectorsFile disk = Some file ->
  exists file',
    selectorsFile (fst (updateSelectors selfTest mined now disk)) = Some file'
    /\ backupFile (fst (updateSelectors selfTest mined now disk)) = Some file
    /\ (forall tbl,
          tableMember file = TableProperty tbl ->
          exists tbl',
            tableMember file' = TableProperty tbl'
            /\ (exists added,
                  map fst (properties tbl') = (map fst (properties tbl) ++ added)%list)
            /\ (forall name,
                  (forall k, In k (map fst mined) -> keyName k <> name) ->
                  getProperty name (properties tbl') = getProperty name (properties tbl))
            /\ rowSelectorsKept (rowSelectorsArray tbl) (rowSelectorsArray tbl'))
    /\ ((forall tbl, tableMember file <> TableProperty tbl) -> file' = file).
Proof.
  intros Hfile.
  destruct (tableMember file) as [tbl| |] eqn:Hmember.
  - destruct (updateSelectors_table selfTest mined now disk file tbl Hfile Hmember)
      as [hs Hdisk].
    rewrite Hdisk. cbn [selectorsFile backupFile].
    eexists. split; [reflexivity|]. split; [reflexivity|]. split.
    + intros tbl0 [= <-]. eexists. split; [reflexivity|]. unfold applyMined.
      pose proof (updateRowSelectors_frame mined (rowSelectorsArray tbl)) as [Hrow _].
      destruct (updateRowSelectors mined (rowSelectorsArray tbl)) as [arr rowChanges].
      pose proof (fold_updateProperty_names mined (properties tbl) rowChanges) as Hnames.
      pose proof (fun name => fold_updateProperty_other_lookup
                                mined (properties tbl) rowChanges name) as Hother.
      destruct (fold_left updateProperty mined (properties tbl, rowChanges))
        as [props changes'].
      cbn [fst rowSelectorsArray properties] in *.
      split; [exact Hnames|]. split; [exact Hother | exact Hrow].
    + intros Hnot. contradiction (Hnot tbl). reflexivity.
  - unfold updateSelectors. rewrite Hfile, Hmember. cbn [fst selectorsFile backupFile].
    exists file. split; [reflexivity|]. split; [reflexivity|].
    split; [intros tbl H; discriminate H | reflexivity].
  - unfold updateSelectors. rewrite Hfile, Hmember. cbn [fst selectorsFile backupFile].
    exists file. split; [reflexivity|]. split; [reflexivity|].
    split; [intros tbl H; discriminate H | reflexivity].
Qed.

Lemma updateSelectors_keeps_the_rest_witness :
  exists file',
    selectorsFile (fst (updateSelectors (Ok tt) minedFull "2025-01-01T00:00:00.000Z" flatDisk))
    = Some file'
    /\ backupFile (fst (updateSelectors (Ok tt) minedFull "2025-01-01T00:00:00.000Z" flatDisk))
       = Some flatFile
    /\ (forall tbl,
          tableMember flatFile = TableProperty tbl ->
          exists tbl',
            tableMember file' = TableProperty tbl'
            /\ (exists added,
                  map fst (properties tbl') = (map fst (properties tbl) ++ added)%list)
            /\ (forall name,
                  (forall k, In k (map fst minedFull) -> keyName k <> name) ->
                  getProperty name (properties tbl') = getProperty name (properties tbl))
            /\ rowSelectorsKept (rowSelectorsArray tbl) (rowSelectorsArray tbl'))
    /\ ((forall tbl, tableMember flatFile <> TableProperty tbl) -> file' = flatFile).
Proof.
  exact (updateSelectors_keeps_the_rest (Ok tt) minedFull "2025-01-01T00:00:00.000Z"
           flatDisk flatFile eq_refl).
Defined.

(** After an update of a selectors.ts whose [table] is a top-level property
    of SELECTORS, the file holds every mined field, whatever the self-test
    does: for each entry of the mined object other than rowClass that
    carries a non-empty value, the table has a property of that name whose
    text is the value in single quotes, or already read as the value with
    its quotes removed; a property that was missing has been added. *)
Theorem updateSelectors_stores_every_mined_field selfTest mined now disk file tbl k v :
  NoDup (map fst mined) ->
  selectorsFile disk = Some file ->
  tableMember file = TableProperty tbl ->
  In (k, Some v) mined -> k <> rowClass -> v <> "" ->
  exists file' tbl' init,
    selectorsFile (fst (updateSelectors selfTest mined now disk)) = Some file'
    /\ tableMember file' = TableProperty tbl'
    /\ getProperty (keyName k) (properties tbl') = Some init
    /\ (init = quoted v \/ stripQuotes init = v).
Proof.
  intros Hnd%NoDup_ListNoDup Hfile Hmember Hin Hk Hv.
  destruct (updateSelectors_table selfTest mined now disk file tbl Hfile Hmember)
    as [hs Hdisk].
  rewrite Hdisk. cbn [selectorsFile].
  exists (mkSourceFile hs (TableProperty (fst (applyMined mined tbl)))),
    (fst (applyMined mined tbl)).
  unfold applyMined.
  destruct (updateRowSelectors mined (rowSelectorsArray tbl)) as [arr rowChanges].
  destruct (fold_updateProperty_stores mined (properties tbl) rowChanges
              k v Hnd Hin Hk Hv) as (init & Hget & Hholds).
  destruct (fold_left updateProperty mined (properties tbl, rowChanges))
    as [props changes'].
  cbn [fst properties] in *. exists init.
  split; [reflexivity|]. split; [reflexivity|]. split; assumption.
Qed.

Lemma updateSelectors_stores_every_mined_field_witness :
  exists file' tbl' init,
    selectorsFile (fst (updateSelectors Throws minedFull "now" sparseDisk)) = Some file'
    /\ tableMember file' = TableProperty tbl'
    /\ getProperty (keyName linkedIn) (properties tbl') = Some init
    /\ (init = quoted selLinkedIn \/ stripQuotes init = selLinkedIn).
Proof.
  eapply (updateSelectors_stores_every_mined_field Throws minedFull "now" sparseDisk _ _
            linkedIn selLinkedIn).
  - apply NoDup_ListNoDup. repeat constructor; cbn; intuition discriminate.
  - reflexivity.
  - reflexivity.
  - cbn. tauto.
  - discriminate.
  - discriminate.
Defined.



(** The handler never gets to the validator or the updater, and never
    changes the disk: whatever the page, the object mined from Locators has
    at most one entry, and the handler wants more than three. *)
Theorem requestHandler_never_reaches_the_validator arrival selfTest page T now disk :
  diskAfter (requestHandler arrival selfTest page T now disk) = disk
  /\ (calls (requestHandler arrival selfTest page T now disk) = []
      \/ calls (requestHandler arrival selfTest page T now disk) = [CallMiner]).
Proof.
  unfold requestHandler.
  destruct arrival; try (split; [reflexivity | left; reflexivity]).
  destruct (mineSelectors page T) as [mined|] eqn:Hm;
    [|split; [reflexivity | right; reflexivity]].
  destruct (mineSelectors_shape page T mined Hm) as [->|(s & r & c & _ & _ & _ & ->)];
    split; first [reflexivity | right; reflexivity].
Qed.

End UpdaterFurther.

(** ** DriftMonitor: probes, counters and the suggestion *)

Section MonitorFurther.
Import Monitor Probes Fixtures MoreFixtures.

(** testMultipleSelectors is first-match-wins: it reports the first
    candidate that appears, with the number of its matches, whatever the
    later candidates would give; it fails, with a count of zero and no
    selector, exactly when no candidate appears. *)
Theorem testMultipleSelectors_first_match_wins page selectors description :
  (forall s,
      foundSelector (testMultipleSelectors page selectors description) = Some s ->
      exists before after,
        selectors = (before ++ s :: after)%list
        /\ (forall b, In b before -> waitForSelector page b = false)
        /\ waitForSelector page s = true
        /\ exists_ (testMultipleSelectors page selectors description) = true
        /\ count (testMultipleSelectors page selectors description)
           = List.length (locator page s))
  /\ (exists_ (testMultipleSelectors page selectors description) = false <->
      forall s, In s selectors -> waitForSelector page s = false)
  /\ (exists_ (testMultipleSelectors page selectors description) = false ->
      count (testMultipleSelectors page selectors description) = 0%nat
      /\ foundSelector (testMultipleSelectors page selectors description) = None).
Proof.
  induction selectors as [|sel rest IH]; cbn [testMultipleSelectors].
  - cbn. split; [discriminate|]. split; [|auto]. split; [intros _ s [] | reflexivity].
  - destruct (waitForSelector page sel) eqn:Hw; cbn [foundSelector exists_ count].
    + split.
      * intros s [= <-]. exists [], rest. repeat split; auto. intros b [].
      * split; [|discriminate]. split; [discriminate|].
        intros H. specialize (H sel (or_introl eq_refl)). congruence.
    + destruct IH as (IH1 & IH2 & IH3). split; [|split; [|exact IH3]].
      * intros s Hs. destruct (IH1 s Hs) as (b & a & -> & Hb & Hrest).
        exists (sel :: b), a. split; [reflexivity|]. split; [|exact Hrest].
        intros x [<-|Hx]; [exact Hw | apply Hb, Hx].
      * rewrite IH2. split.
        -- intros H s [<-|Hs]; [exact Hw | apply H, Hs].
        -- intros H s Hs. apply H. right. exact Hs.
Qed.

Lemma countResult_counts c r :
  passed (countResult c r) = (passed c + if exists_ r then 1 else 0)%nat
  /\ failed (countResult c r) = (failed c + if exists_ r then 0 else 1)%nat
  /\ (warnings c <= warnings (countResult c r))%nat
  /\ (warnings (countResult c r) <= warnings c + if exists_ r then 1 else 0)%nat.
Proof.
  unfold countResult. destruct (exists_ r); cbn [andb passed failed warnings].
  - destruct ((0 <? count r)%nat && (count r <? 5)%nat && JS.includes (description r) "row");
      cbn [passed failed warnings]; lia.
  - lia.
Qed.

Lemma fold_countResult_counts rs c :
  passed (fold_left countResult rs c) = (passed c + List.length (List.filter exists_ rs))%nat
  /\ failed (fold_left countResult rs c)
     = (failed c + List.length (List.filter (fun r => negb (exists_ r)) rs))%nat
  /\ (warnings (fold_left countResult rs c)
      <= warnings c + List.length (List.filter exists_ rs))%nat.
Proof.
  revert c. induction rs as [|r rs IH]; intros c; cbn [fold_left List.filter];
    [cbn; lia|].
  destruct (IH (countResult c r)) as (Hp & Hf & Hw).
  destruct (countResult_counts c r) as (Hp1 & Hf1 & _ & Hw1).
  rewrite Hp, Hf, Hp1, Hf1. destruct (exists_ r); cbn [negb List.length]; lia.
Qed.

Lemma reportCounters_counts cats :
  passed (reportCounters cats) = List.length (List.filter exists_ (flat_map results cats))
  /\ failed (reportCounters cats)
     = List.length (List.filter (fun r => negb (exists_ r)) (flat_map results cats))
  /\ (warnings (reportCounters cats) <= passed (reportCounters cats))%nat.
Proof.
  unfold reportCounters.
  assert (H : forall c,
             passed (fold_left (fun c cat => fold_left countResult (results cat) c) cats c)
             = (passed c + List.length (List.filter exists_ (flat_map results cats)))%nat
             /\ failed (fold_left (fun c cat => fold_left countResult (results cat) c) cats c)
                = (failed c + List.length (List.filter (fun r => negb (exists_ r))
                                                       (flat_map results cats)))%nat
             /\ (warnings (fold_left (fun c cat => fold_left countResult (results cat) c)
                                     cats c)
                 <= warnings c + List.length (List.filter exists_ (flat_map results cats)))%nat).
  { induction cats as [|cat cats IH]; intros c; cbn [fold_left flat_map]; [cbn; lia|].
    destruct (IH (fold_left countResult (results cat) c)) as (Hp & Hf & Hw).
    destruct (fold_countResult_counts (results cat) c) as (Hp1 & Hf1 & Hw1).
    rewrite !List.filter_app, !length_app. lia. }
  destruct (H (mkCounters 0 0 0)) as (Hp & Hf & Hw). cbn [passed failed warnings] in *.
  lia.
Qed.

Lemma filter_length_le {A} (f g : A -> bool) l :
  (forall x, f x = true -> g x = true) ->
  (List.length (List.filter f l) <= List.length (List.filter g l))%nat.
Proof.
  intros Hfg. induction l as [|x l IH]; cbn [List.filter]; [lia|].
  destruct (f x) eqn:Hf.
  - rewrite (Hfg x Hf). cbn. lia.
  - destruct (g x); cbn; lia.
Qed.

(** The report counts every probe once, as passed or as failed, and warns
    only about probes that passed.  The handler never counts more failures
    than the report does, so whenever it writes anything the report has
    more than three failures and recommends running the miner. *)
Theorem report_counts_bound_the_suggestion cats autoMineEnv :
  (passed (reportCounters cats) + failed (reportCounters cats))%nat
  = List.length (flat_map results cats)
  /\ (warnings (reportCounters cats) <= passed (reportCounters cats))%nat
  /\ (List.length (failedSelectors cats) <= failed (reportCounters cats))%nat
  /\ (handleSelectorFailures cats autoMineEnv <> [] ->
      (3 < failed (reportCounters cats))%nat /\ recommendsMining cats = true).
Proof.
  destruct (reportCounters_counts cats) as (Hp & Hf & Hw).
  assert (Hle : (List.length (failedSelectors cats) <= failed (reportCounters cats))%nat).
  { unfold failedSelectors. rewrite length_map, Hf. apply filter_length_le.
    intros r H. apply andb_prop in H as [H _]. exact H. }
  split.
  { rewrite Hp, Hf. generalize (flat_map results cats). intros l.
    induction l as [|r l IH]; cbn [List.filter List.length]; [reflexivity|].
    destruct (exists_ r); cbn [negb List.length]; lia. }
  split; [exact Hw|]. split; [exact Hle|].
  unfold handleSelectorFailures, recommendsMining.
  destruct (3 <? List.length (failedSelectors cats))%nat eqn:Hgt;
    [|intros H; contradiction H; reflexivity].
  intros _. apply Nat.ltb_lt in Hgt. split; [lia | apply Nat.ltb_lt; lia].
Qed.

(** A probe made by testSelector or testMultipleSelectors that failed has a
    count of zero.  On a run whose failed probes all have a count of zero,
    the handler counts exactly the failures of the report, and it writes
    its warning exactly when the report has more than three of them. *)
Theorem handler_agrees_with_report_on_probe_results cats autoMineEnv :
  (forall r, In r (flat_map results cats) -> exists_ r = false -> count r = 0%nat) ->
  List.length (failedSelectors cats) = failed (reportCounters cats)
  /\ (In (LogWarning (SelectorsFailedSuggestingAutoMining (failed (reportCounters cats))))
         (handleSelectorFailures cats autoMineEnv)
      <-> (3 < failed (reportCounters cats))%nat)
  /\ (forall page selector selectors description,
        (exists_ (testSelector page selector description) = false ->
         count (testSelector page selector description) = 0%nat)
        /\ (exists_ (testMultipleSelectors page selectors description) = false ->
            count (testMultipleSelectors page selectors description) = 0%nat)).
Proof.
  intros Hwf. destruct (reportCounters_counts cats) as (_ & Hf & _).
  assert (Heq : List.length (failedSelectors cats) = failed (reportCounters cats)).
  { unfold failedSelectors. rewrite length_map, Hf.
    revert Hwf. generalize (flat_map results cats). intros l Hwf.
    induction l as [|r l IH]; cbn [List.filter]; [reflexivity|].
    assert (IH' : List.length (List.filter (fun r => negb (exists_ r) && (count r =? 0)%nat) l)
                  = List.length (List.filter (fun r => negb (exists_ r)) l)).
    { apply IH. intros r' Hr'. apply Hwf. right. exact Hr'. }
    destruct (exists_ r) eqn:He; cbn [negb andb]; [exact IH'|].
    rewrite (Hwf r (or_introl eq_refl) He). cbn. rewrite IH'. reflexivity. }
  split; [exact Heq|]. split.
  - unfold handleSelectorFailures. rewrite Heq.
    destruct (3 <? failed (reportCounters cats))%nat eqn:Hgt.
    + apply Nat.ltb_lt in Hgt. split; [intros _; exact Hgt | intros _; left; reflexivity].
    + apply Nat.ltb_ge in Hgt. split; [intros [] | lia].
  - intros page selector selectors description. split.
    + unfold testSelector. destruct (waitForSelector page selector); [discriminate|reflexivity].
    + induction selectors as [|s rest IH]; cbn [testMultipleSelectors]; [reflexivity|].
      destruct (waitForSelector page s); [discriminate | exact IH].
Qed.

Lemma handler_agrees_with_report_on_probe_results_witness :
  failed (reportCounters runProbesOnly) = 4%nat
  /\ List.length (failedSelectors runProbesOnly) = failed (reportCounters runProbesOnly)
  /\ (In (LogWarning (SelectorsFailedSuggestingAutoMining
                        (failed (reportCounters runProbesOnly))))
         (handleSelectorFailures runProbesOnly None)
      <-> (3 < failed (reportCounters runProbesOnly))%nat).
Proof.
  split; [reflexivity|].
  pose proof (handler_agrees_with_report_on_probe_results runProbesOnly None) as H.
  assert (Hwf : forall r, In r (flat_map results runProbesOnly) ->
                          exists_ r = false -> count r = 0%nat).
  { cbn. intros r Hr. repeat (destruct Hr as [<-|Hr]; [cbn; intros; first [reflexivity | discriminate]|]).
    destruct Hr. }
  destruct (H Hwf) as (H1 & H2 & _). split; [exact H1 | exact H2].
Defined.

End MonitorFurther.

(** ** The scraper: names and pages *)

Section ScraperFurther.
Import JS NameParts Crawl MoreFixtures.

(** A word: not empty and without a space. *)
Lemma split_word w :
  includesChar w " "%char = false -> split " "%char w = [w].
Proof.
  induction w as [|c w IH]; cbn [includesChar split]; [reflexivity|].
  destruct (Ascii.eqb c " "%char); cbn [orb]; [discriminate|].
  intros Hw. rewrite (IH Hw). reflexivity.
Qed.

Lemma split_word_space w s :
  includesChar w " "%char = false ->
  split " "%char (w ++ String " "%char s) = w :: split " "%char s.
Proof.
  induction w as [|c w IH]; cbn [includesChar split String.append]; intros Hw.
  - reflexivity.
  - destruct (Ascii.eqb c " "%char); cbn [orb] in *; [discriminate|].
    rewrite (IH Hw). reflexivity.
Qed.

Lemma nameParts_join ws :
  Forall (fun w => w <> "" /\ includesChar w " "%char = false) ws ->
  ws <> [] ->
  nameParts (join " " ws) = ws.
Proof.
  unfold nameParts, join. induction ws as [|w ws IH]; intros Hall Hne; [contradiction|].
  apply Forall_cons_iff in Hall as [[Hw Hsp] Hall].
  assert (Ht : truthy (Some w) = true).
  { cbn. destruct (String.eqb w "") eqn:E; [apply String.eqb_eq in E; contradiction|].
    reflexivity. }
  destruct ws as [|w' ws].
  - cbn [String.concat]. rewrite (split_word w Hsp). cbn [List.filter]. rewrite Ht. reflexivity.
  - change (String.concat " " (w :: w' :: ws))
      with (w ++ String " "%char (String.concat " " (w' :: ws))).
    rewrite (split_word_space w _ Hsp). cbn [List.filter]. rewrite Ht.
    rewrite IH; [reflexivity | exact Hall | discriminate].
Qed.

(** Splitting a full name made of words separated by single spaces gives
    the first word as first name and the remaining words, joined again by
    single spaces, as last name; a single word has the last name N/A. *)
Theorem name_of_joined_words w ws :
  Forall (fun x => x <> "" /\ includesChar x " "%char = false) (w :: ws) ->
  firstName (join " " (w :: ws)) = w
  /\ lastName (join " " (w :: ws))
     = match ws with [] => "N/A" | _ :: _ => join " " ws end.
Proof.
  intros Hall. unfold firstName, lastName.
  rewrite (nameParts_join (w :: ws) Hall) by discriminate.
  pose proof Hall as Hall'. apply Forall_cons_iff in Hall' as [[Hw _] Hrest].
  assert (Ht : truthy (Some w) = true).
  { cbn. destruct (String.eqb w "") eqn:E; [apply String.eqb_eq in E; contradiction|].
    reflexivity. }
  rewrite Ht. split; [reflexivity|]. cbn [tl].
  destruct ws as [|w' ws]; [reflexivity|].
  apply Forall_cons_iff in Hrest as [[Hw' _] _].
  assert (Hj : truthy (Some (join " " (w' :: ws))) = true).
  { unfold join. destruct ws; cbn [String.concat].
    - cbn. destruct (String.eqb w' "") eqn:E; [apply String.eqb_eq in E; contradiction|].
      reflexivity.
    - destruct w'; [contradiction Hw'; reflexivity | reflexivity]. }
  rewrite Hj. reflexivity.
Qed.

Lemma name_of_joined_words_witness :
  firstName "Ada King Lovelace" = "Ada" /\ lastName "Ada King Lovelace" = "King Lovelace".
Proof.
  apply (name_of_joined_words "Ada" ["King"; "Lovelace"]).
  repeat constructor; discriminate.
Defined.

Lemma split_pieces_space_free s p :
  In p (split " "%char s) -> includesChar p " "%char = false.
Proof.
  revert p. induction s as [|c s IH]; cbn [split]; intros p.
  - intros [<-|[]]. reflexivity.
  - destruct (Ascii.eqb c " "%char) eqn:Hc.
    + intros [<-|Hp]; [reflexivity | apply IH, Hp].
    + destruct (split " "%char s) as [|piece pieces] eqn:Hs.
      * intros [<-|[]]. cbn. rewrite Hc. reflexivity.
      * intros [<-|Hp].
        -- cbn [includesChar]. rewrite Hc. cbn [orb]. apply IH. left. reflexivity.
        -- apply IH. right. exact Hp.
Qed.

(** Whatever the text of the name cell, the first name is never empty and
    never contains a space, the last name is never empty, and both are N/A
    when the text holds nothing but spaces. *)
Theorem names_are_never_empty fullNameRaw :
  firstName fullNameRaw <> ""
  /\ includesChar (firstName fullNameRaw) " "%char = false
  /\ lastName fullNameRaw <> ""
  /\ (nameParts fullNameRaw = [] ->
      firstName fullNameRaw = "N/A" /\ lastName fullNameRaw = "N/A").
Proof.
  unfold firstName, lastName.
  assert (Hparts : forall p, In p (nameParts fullNameRaw) ->
                             truthy (Some p) = true /\ includesChar p " "%char = false).
  { intros p Hp. unfold nameParts in Hp. apply filter_In in Hp as [Hin Ht].
    split; [exact Ht | apply (split_pieces_space_free fullNameRaw p Hin)]. }
  destruct (nameParts fullNameRaw) as [|part parts].
  - cbn. repeat split; discriminate.
  - destruct (Hparts part (or_introl eq_refl)) as [Ht Hsp]. rewrite Ht.
    split; [intros ->; discriminate Ht|]. split; [exact Hsp|]. split; [|discriminate].
    destruct (truthy (Some (join " " (tl (part :: parts))))) eqn:Hj; [|discriminate].
    intros H. rewrite H in Hj. discriminate Hj.
Qed.

Lemma crawlFrom_progress outcome remaining :
  forall pageNum st k,
    (k <= remaining)%nat ->
    (forall i, (i < k)%nat -> outcome (pageNum + i)%nat = PageDone) ->
    ((k < remaining)%nat -> outcome (pageNum + k)%nat <> PageDone) ->
    lastScrapedPage (crawlFrom outcome remaining pageNum st)
      = (match k with O => lastScrapedPage st | S k' => Some (pageNum + k')%nat end)
    /\ exists extra,
         scrapedPages (crawlFrom outcome remaining pageNum st)
           = (scrapedPages st ++ seq pageNum k ++ extra)%list
         /\ (extra = []
             \/ (extra = [(pageNum + k)%nat]
                 /\ outcome (pageNum + k)%nat = SaveThrows)).
Proof.
  induction remaining as [|r IH]; intros pageNum st k Hk Hdone Hstop.
  - assert (k = 0)%nat as -> by lia. cbn. split; [reflexivity|].
    exists []. rewrite app_nil_r. auto.
  - cbn [crawlFrom]. destruct k as [|k'].
    + rewrite Nat.add_0_r in Hstop. specialize (Hstop ltac:(lia)).
      destruct (outcome pageNum) eqn:Ho; try contradiction;
        cbn [lastScrapedPage scrapedPages seq app]; (split; [reflexivity|]).
      * exists []. rewrite app_nil_r. auto.
      * exists []. rewrite app_nil_r. auto.
      * exists [pageNum]. split; [reflexivity|]. right.
        rewrite Nat.add_0_r. auto.
    + pose proof (Hdone 0%nat ltac:(lia)) as H0. rewrite Nat.add_0_r in H0. rewrite H0.
      destruct (IH (S pageNum) (mkCrawlState (Some pageNum) (scrapedPages st ++ [pageNum]))
                   k' ltac:(lia)) as (Hlast & extra & Hpages & Hextra).
      { intros i Hi. replace (S pageNum + i)%nat with (pageNum + S i)%nat by lia.
        apply Hdone. lia. }
      { intros Hlt. replace (S pageNum + k')%nat with (pageNum + S k')%nat by lia.
        apply Hstop. lia. }
      split.
      * rewrite Hlast. destruct k' as [|k'']; cbn [lastScrapedPage]; f_equal; lia.
      * exists extra. rewrite Hpages. cbn [scrapedPages seq]. rewrite <- !app_assoc.
        split; [reflexivity|].
        replace (pageNum + S k')%nat with (S pageNum + k')%nat by lia. exact Hextra.
Qed.

(** A run picks up where the last one stopped.  When the first [k] pages
    of a run go through and the next one does not (or the run reaches its
    five pages), the pages scraped are the [k] consecutive pages from the
    start page, and the next run starts at the page after them: no page is
    skipped.  The one page that can be scraped twice is a page whose
    progress could not be saved: it is scraped, and the next run starts at
    it again. *)
Theorem next_run_starts_at_first_unfinished_page resetScrape stored outcome k :
  (k <= MAX_PAGES_TO_SCRAPE)%nat ->
  (forall i, (i < k)%nat ->
             outcome (fst (setupPersistence resetScrape stored) + i)%nat = PageDone) ->
  ((k < MAX_PAGES_TO_SCRAPE)%nat ->
   outcome (fst (setupPersistence resetScrape stored) + k)%nat <> PageDone) ->
  fst (setupPersistence false (lastScrapedPage (run resetScrape stored outcome)))
  = (fst (setupPersistence resetScrape stored) + k)%nat
  /\ exists extra,
       scrapedPages (run resetScrape stored outcome)
       = (seq (fst (setupPersistence resetScrape stored)) k ++ extra)%list
       /\ (extra = []
           \/ (extra = [(fst (setupPersistence resetScrape stored) + k)%nat]
               /\ outcome (fst (setupPersistence resetScrape stored) + k)%nat = SaveThrows)).
Proof.
  intros Hk Hdone Hstop. unfold run.
  assert (Hstart : (1 <= fst (setupPersistence resetScrape stored))%nat
                   /\ fst (setupPersistence false (snd (setupPersistence resetScrape stored)))
                      = fst (setupPersistence resetScrape stored)).
  { unfold setupPersistence. destruct resetScrape; cbn [fst snd]; [split; [lia|reflexivity]|].
    destruct stored as [[|n]|]; cbn; split; lia. }
  destruct (setupPersistence resetScrape stored) as [startPage stored'].
  cbn [fst snd] in *. destruct Hstart as [Hge Hsame].
  destruct (crawlFrom_progress outcome MAX_PAGES_TO_SCRAPE startPage
              (mkCrawlState stored' []) k Hk Hdone Hstop) as (Hlast & extra & Hpages & Hextra).
  split.
  - rewrite Hlast. destruct k as [|k']; cbn [lastScrapedPage].
    + rewrite Hsame. lia.
    + unfold setupPersistence. cbn [fst].
      destruct (startPage + k')%nat as [|n] eqn:E; lia.
  - exists extra. split; [exact Hpages | exact Hextra].
Qed.

Lemma next_run_starts_at_first_unfinished_page_witness :
  fst (setupPersistence false (lastScrapedPage (run false (Some 5%nat) outcomeStopsAt8)))
  = 8%nat
  /\ exists extra,
       scrapedPages (run false (Some 5%nat) outcomeStopsAt8) = ([6; 7] ++ extra)%nat%list
       /\ (extra = []
           \/ (extra = [8%nat] /\ outcomeStopsAt8 8 = SaveThrows)).
Proof.
  apply (next_run_starts_at_first_unfinished_page false (Some 5%nat) outcomeStopsAt8 2).
  - unfold MAX_PAGES_TO_SCRAPE. lia.
  - intros [|[|i]] Hi; [reflexivity | reflexivity | lia].
  - intros _. discriminate.
Defined.

End ScraperFurther.

(** ** ConfigUpdater: a repeated update, on a sample *)

Section UpdaterRepeated.
Import JS Updater Fixtures MoreFixtures.

Lemma updateSelectors_twice_without_quotes_witness :
  updateSelectors (Ok tt) minedPlain "2025-01-02T00:00:00.000Z" diskPlain1
  = (mkDisk (selectorsFile diskPlain1) (selectorsFile diskPlain1), Ok []).
Proof.
  eapply (updateSelectors_twice_without_quotes
            Throws (Ok tt) minedPlain "2025-01-01T00:00:00.000Z" "2025-01-02T00:00:00.000Z"
            flatDisk flatFile currentTable diskPlain1 Throws).
  - apply NoDup_ListNoDup. repeat constructor; cbn; intuition discriminate.
  - intros k v H. cbn in H.
    repeat (destruct H as [[= <- <-]|H]; [reflexivity|]). destruct H.
  - reflexivity.
  - reflexivity.
  - vm_compute. reflexivity.
Defined.

End UpdaterRepeated.
